(** * Password generators: pools, PIN filter, passphrases, strength score

    A shallow embedding of the two Python modules of the repository,
    [password_generators.py] (module [PasswordGenerators] below) and
    [dasshboard.py] (module [Dashboard] below), and the properties of
    their generators and of the strength scorer.

    Conventions of the embedding:
    - a Python [str] is a list of characters ([list ascii] for the
      generators, whose alphabets are ASCII constants of the [string]
      module);
    - a length is a natural number (the interface only produces
      non-negative lengths);
    - the random source is an oracle [nat -> nat] read through a cursor;
      every theorem about a generator quantifies over all oracles;
    - a raised exception is a value of [exn]; every generator runs in a
      small state-and-error monad [M]. *)

From Stdlib Require Import Ascii String QArith Qround Lqa.
From stdpp Require Import base numbers list gmap strings.

Local Open Scope nat_scope.

(** ** Python strings and the constants of the [string] module *)

Abbreviation str := (list ascii).

Definition str_of (x : string) : str := list_ascii_of_string x.

Definition ascii_uppercase : str := str_of "ABCDEFGHIJKLMNOPQRSTUVWXYZ".
Definition ascii_lowercase : str := str_of "abcdefghijklmnopqrstuvwxyz".
Definition digits : str := str_of "0123456789".
(** [string.punctuation]; the double quote (code 34) is written by code. *)
Definition punctuation : str :=
  str_of "!" ++ [ascii_of_nat 34] ++ str_of "#$%&'()*+,-./:;<=>?@[\]^_`{|}~".

(** [sep.join(parts)] *)
Fixpoint join (sep : str) (parts : list str) : str :=
  match parts with
  | [] => []
  | [w] => w
  | w :: rest => w ++ sep ++ join sep rest
  end.

(** [s.replace(old, new)] for a one-character [old]. *)
Definition replace (old : ascii) (new : str) (x : str) : str :=
  mjoin ((fun c => if decide (c = old) then new else [c]) <$> x).

(** [c.upper()], [c.lower()] on ASCII letters; other characters are kept. *)
Definition is_ascii_upper (c : ascii) : bool :=
  let n := nat_of_ascii c in (65 <=? n) && (n <=? 90).
Definition is_ascii_lower (c : ascii) : bool :=
  let n := nat_of_ascii c in (97 <=? n) && (n <=? 122).
Definition is_ascii_digit (c : ascii) : bool :=
  let n := nat_of_ascii c in (48 <=? n) && (n <=? 57).
Definition upper_char (c : ascii) : ascii :=
  if is_ascii_lower c then ascii_of_nat (nat_of_ascii c - 32) else c.
Definition lower_char (c : ascii) : ascii :=
  if is_ascii_upper c then ascii_of_nat (nat_of_ascii c + 32) else c.

(** [w.lower()] and [w.capitalize()] *)
Definition lower (w : str) : str := lower_char <$> w.
Definition capitalize (w : str) : str :=
  match w with
  | [] => []
  | c :: rest => upper_char c :: lower rest
  end.

(** [int(c)] for a digit character, as a Python integer. *)
Definition int_of_digit (c : ascii) : Z := Z.of_nat (nat_of_ascii c) - 48.

(** ** Exceptions *)

(** The generators raise [ValueError] with four different messages; an
    empty sequence handed to [random.choice] raises [IndexError]. *)
Inductive message : Type :=
| NoCharacterTypes        (* "No character types selected!" *)
| NotEnoughUnique         (* "Cannot generate password with ... unique characters ..." /
                             "Not enough unique characters for the requested length." *)
| SampleLargerThanPopulation (* raised by random.sample itself *)
| PinAttemptsExhausted.   (* "Unable to generate a secure PIN after ... attempts. ..." *)

Inductive exn : Type :=
| ValueError (m : message)
| IndexError.

(** The error kinds of the specification. *)
Definition ConfigError : exn := ValueError NoCharacterTypes.
Definition InsufficientPoolError : exn := ValueError NotEnoughUnique.
Definition InsufficientVocabularyError : exn := ValueError SampleLargerThanPopulation.
Definition PinExhaustionError : exn := ValueError PinAttemptsExhausted.

Inductive result (A : Type) : Type :=
| Ok (a : A)
| Raise (e : exn).
Arguments Ok {A} a.
Arguments Raise {A} e.

(** ** The random source and the monad of the generators *)

Record Rng : Type := mkRng { draws : nat -> nat; cursor : nat }.

Definition M (A : Type) : Type := Rng -> result A * Rng.

Definition ret {A} (a : A) : M A := fun r => (Ok a, r).
Definition raise {A} (e : exn) : M A := fun r => (Raise e, r).
Definition bind {A B} (m : M A) (k : A -> M B) : M B :=
  fun r => match m r with
           | (Ok a, r') => k a r'
           | (Raise e, r') => (Raise e, r')
           end.

Notation "x <- m ;; k" := (bind m (fun x => k))
  (at level 100, m at next level, right associativity).

(** One draw below [n] (the generator's [_randbelow(n)], [n > 0]). *)
Definition randbelow (n : nat) : M nat :=
  fun r => (Ok (draws r (cursor r) mod n), mkRng (draws r) (S (cursor r))).

(** [random.choice(seq)] *)
Definition choice {A} (seq : list A) : M A :=
  match seq with
  | [] => raise IndexError
  | _ => j <- randbelow (length seq) ;;
         match seq !! j with
         | Some x => ret x
         | None => raise IndexError
         end
  end.

(** [[m for _ in range(n)]] *)
Fixpoint replicateM {A} (n : nat) (m : M A) : M (list A) :=
  match n with
  | 0 => ret []
  | S n' => x <- m ;; xs <- replicateM n' m ;; ret (x :: xs)
  end.

(** [random.choices(population, k=k)] *)
Definition choices {A} (population : list A) (k : nat) : M (list A) :=
  replicateM k (choice population).

(** [random.sample(population, k)]: [k] positions drawn without
    replacement.  The loop is the library's pool selection: the drawn
    slot is overwritten by the last live one and the live prefix shrinks.
    (For some sizes the library tracks the chosen positions in a set
    instead; both select any [k] distinct positions and no others.) *)
Fixpoint sample_loop {A} (k : nat) (pool : list A) : M (list A) :=
  match k with
  | 0 => ret []
  | S k' =>
      j <- randbelow (length pool) ;;
      match pool !! j, last pool with
      | Some x, Some y =>
          rest <- sample_loop k' (removelast (<[j := y]> pool)) ;;
          ret (x :: rest)
      | _, _ => raise IndexError
      end
  end.

Definition sample {A} (population : list A) (k : nat) : M (list A) :=
  if length population <? k then raise (ValueError SampleLargerThanPopulation)
  else sample_loop k population.

(** Running a generator on an oracle, from cursor 0. *)
Definition run {A} (m : M A) (oracle : nat -> nat) : result A :=
  fst (m (mkRng oracle 0)).
Definition consumed {A} (m : M A) (oracle : nat -> nat) : nat :=
  cursor (snd (m (mkRng oracle 0))).

(** The source moved [n] draws further. *)
Definition advance (r : Rng) (n : nat) : Rng := mkRng (draws r) (cursor r + n).

(** The [n] elements of [l] selected by the draws at cursors [c], [c+1], ... *)
Fixpoint picks {A} (d : A) (l : list A) (f : nat -> nat) (c n : nat) : list A :=
  match n with
  | 0 => []
  | S n' => nth (f c mod length l) l d :: picks d l f (S c) n'
  end.

(** ** [password_generators.py] *)

Module PasswordGenerators.

(** *** [RandomPasswordGenerator] *)

Record RandomPasswordGenerator : Type := mkRandom {
  rpg_length : nat;
  rpg_no_repeated_characters : bool;
  rpg_characters : str
}.

Definition similar_chars : str := str_of "O0l1I".

(** The pool assembled by [__init__]. *)
Definition characters
    (include_uppercase include_lowercase include_numbers include_symbols
     exclude_similar : bool) : str :=
  let cs := [] in
  let cs := if include_uppercase then cs ++ ascii_uppercase else cs in
  let cs := if include_lowercase then cs ++ ascii_lowercase else cs in
  let cs := if include_numbers then cs ++ digits else cs in
  let cs := if include_symbols then cs ++ punctuation else cs in
  if exclude_similar then filter (fun char => char ∉ similar_chars) cs
  else cs.

Definition init (length : nat)
    (include_uppercase include_lowercase include_numbers include_symbols
     exclude_similar no_repeated_characters : bool) : RandomPasswordGenerator :=
  {| rpg_length := length;
     rpg_no_repeated_characters := no_repeated_characters;
     rpg_characters := characters include_uppercase include_lowercase
                         include_numbers include_symbols exclude_similar |}.

Definition generate (self : RandomPasswordGenerator) : M str :=
  if rpg_no_repeated_characters self then
    if length (rpg_characters self) <? rpg_length self
    then raise (ValueError NotEnoughUnique)
    else sample (rpg_characters self) (rpg_length self)
  else replicateM (rpg_length self) (choice (rpg_characters self)).

(** *** [MemorablePasswordGenerator] *)

Record MemorablePasswordGenerator : Type := mkMemorable {
  mpg_no_of_words : nat;
  mpg_separator : str;
  mpg_capitalization : bool;
  mpg_suffix_length : nat;
  mpg_vocabulary : list str
}.

Definition generate_memorable (self : MemorablePasswordGenerator) : M str :=
  password_words <-
    replicateM (mpg_no_of_words self) (choice (mpg_vocabulary self)) ;;
  let password_words :=
    if mpg_capitalization self then capitalize <$> password_words
    else password_words in
  let password := join (mpg_separator self) password_words in
  if 0 <? mpg_suffix_length self then
    suffix <- replicateM (mpg_suffix_length self) (choice digits) ;;
    ret (password ++ suffix)
  else ret password.

(** *** [PinCodeGenerator] *)

Definition blocked : gset str :=
  {[ str_of "1234"; str_of "0000"; str_of "1111"; str_of "2580" ]}.

Definition is_repeating (pin : str) : bool :=
  bool_decide (size (list_to_set pin : gset ascii) = 1).

(** [[int(pin[i+1]) - int(pin[i]) for i in range(len(pin)-1)]] *)
Fixpoint diffs (pin : str) : list Z :=
  match pin with
  | a :: (b :: _) as rest => (int_of_digit b - int_of_digit a)%Z :: diffs rest
  | _ => []
  end.

Definition is_sequential (pin : str) : bool :=
  if length pin <? 2 then false
  else forallb (fun d => (d =? 1)%Z) (diffs pin)
       || forallb (fun d => (d =? -1)%Z) (diffs pin).

Definition max_attempts : nat := 1000.

(** The [for _ in range(max_attempts)] loop, by the attempts left. *)
Fixpoint attempt (attempts_left length : nat) : M str :=
  match attempts_left with
  | 0 => raise (ValueError PinAttemptsExhausted)
  | S n =>
      pin <- replicateM length (choice digits) ;;
      if bool_decide (pin ∈ blocked) then attempt n length
      else if is_repeating pin then attempt n length
      else if is_sequential pin then attempt n length
      else ret pin
  end.

Definition generate_pin (length : nat) : M str := attempt max_attempts length.

End PasswordGenerators.

(** ** [dasshboard.py] *)

Module Dashboard.

(** *** [RandomPasswordGenerator] *)

Record RandomPasswordGenerator : Type := mkRandom {
  length_ : nat;
  include_upper : bool;
  include_lower : bool;
  include_digits : bool;
  include_symbols : bool;
  exclude_similar : bool;
  no_repeated : bool
}.

(** The pool assembled at the start of [generate]. *)
Definition chars (self : RandomPasswordGenerator) : str :=
  let cs := [] in
  let cs := if include_upper self then cs ++ ascii_uppercase else cs in
  let cs := if include_lower self then cs ++ ascii_lowercase else cs in
  let cs := if include_digits self then cs ++ digits else cs in
  let cs := if include_symbols self then cs ++ punctuation else cs in
  if exclude_similar self
  then foldl (fun cs char => replace char [] cs) cs (str_of "Il1O0")
  else cs.

Definition generate (self : RandomPasswordGenerator) : M str :=
  let cs := chars self in
  if bool_decide (cs = []) then raise (ValueError NoCharacterTypes)
  else if no_repeated self && (length cs <? length_ self)
  then raise (ValueError NotEnoughUnique)
  else if no_repeated self then sample cs (length_ self)
  else replicateM (length_ self) (choice cs).

(** *** [MemorablePasswordGenerator] *)

Record MemorablePasswordGenerator : Type := mkMemorable {
  no_of_words : nat;
  separator : str;
  capitalization : bool;
  vocabulary : list str;
  suffix_length : nat
}.

Definition default_vocabulary : list str :=
  [str_of "apple"; str_of "banana"; str_of "cherry"].

(** [__init__]: an empty (or missing) vocabulary is replaced by the default. *)
Definition init_memorable (no_of_words : nat) (separator : str)
    (capitalization : bool) (vocabulary : list str) (suffix_length : nat)
  : MemorablePasswordGenerator :=
  {| no_of_words := no_of_words;
     separator := separator;
     capitalization := capitalization;
     vocabulary := match vocabulary with
                   | [] => default_vocabulary
                   | _ => vocabulary
                   end;
     suffix_length := suffix_length |}.

Definition filtered_vocab (self : MemorablePasswordGenerator) : list str :=
  let fv := filter (fun w => 3 < length w < 8) (vocabulary self) in
  match fv with
  | [] => vocabulary self
  | _ => fv
  end.

Definition generate_memorable (self : MemorablePasswordGenerator) : M str :=
  selected_words <- sample (filtered_vocab self) (no_of_words self) ;;
  let selected_words :=
    if capitalization self then capitalize <$> selected_words
    else lower <$> selected_words in
  let password := join (separator self) selected_words in
  if 0 <? suffix_length self then
    suffix <- choices digits (suffix_length self) ;;
    ret (password ++ suffix)
  else ret password.

(** *** [PinCodeGenerator] *)

Definition generate_pin (length : nat) : M str := choices digits length.

(** *** [compute_strength]

    The scorer takes any Python string; its four character tests
    ([str.isupper], [str.islower], [str.isdigit], [str.isalnum]) come
    from the Unicode database and are parameters here.

    The floats of the source are exact in this computation:
    [min(length - 4, 16) / 16] is a multiple of 1/16 between 1/16 and 1,
    [classes / 4] a multiple of 1/4, and their products by 40 and the
    sum are multiples of 1/2 below 101, all representable in binary64.
    The scores are therefore computed over [Q]. *)

(** [round(x)] on a float: to the nearest integer, ties to the even one. *)
Definition py_round (x : Q) : Z :=
  let f := Qfloor x in
  match (x - inject_Z f ?= 1 # 2)%Q with
  | Lt => f
  | Gt => (f + 1)%Z
  | Eq => if Z.even f then f else (f + 1)%Z
  end.

Section Strength.
Context {C : Type}.
Variables isupper islower isdigit isalnum : C -> bool.

Definition compute_strength (pw : list C) : Z * string :=
  match pw with
  | [] => (0%Z, "Weak"%string)
  | _ =>
      let length := Z.of_nat (List.length pw) in
      let has_upper := existsb isupper pw in
      let has_lower := existsb islower pw in
      let has_digit := existsb isdigit pw in
      let has_symbol := existsb (fun c => negb (isalnum c)) pw in
      let length_score : Q :=
        if (4 <? length)%Z
        then (inject_Z (Z.min (length - 4) 16) / 16 * 40)%Q
        else 0%Q in
      let classes :=
        (Z.b2z has_upper + Z.b2z has_lower + Z.b2z has_digit
         + Z.b2z has_symbol)%Z in
      let diversity_score : Q := (inject_Z classes / 4 * 40)%Q in
      let bonus :=
        if has_digit && has_symbol then 20%Z
        else if has_digit || has_symbol then 10%Z else 0%Z in
      let score :=
        Z.min 100
          (py_round (length_score + diversity_score + inject_Z bonus)%Q) in
      let label :=
        if (score <? 40)%Z then "Weak"%string
        else if (score <? 60)%Z then "Medium"%string
        else if (score <? 80)%Z then "Strong"%string
        else "Very Strong"%string in
      (score, label)
  end.
End Strength.

End Dashboard.

(** ** The page of [dasshboard.py]: session state and one script run

    The page script runs from top to bottom on every interaction; the
    session state outlives the runs.  A run receives the values of the
    widgets and whether the button was clicked; [st.rerun()] starts the
    script again, the button then reading as not clicked. *)

Module Page.

Inductive password_type : Type :=
| RandomPassword
| MemorablePassword
| PinCode.

#[global] Instance password_type_eq_dec : EqDecision password_type.
Proof. solve_decision. Defined.

(** The generator object of the session, of one of the three classes. *)
Inductive Generator : Type :=
| GRandom (g : Dashboard.RandomPasswordGenerator)
| GMemorable (g : Dashboard.MemorablePasswordGenerator)
| GPin (length : nat).

(** [generator.generate()] *)
Definition generate (g : Generator) : M str :=
  match g with
  | GRandom g => Dashboard.generate g
  | GMemorable g => Dashboard.generate_memorable g
  | GPin length => Dashboard.generate_pin length
  end.

(** [st.session_state] *)
Record session : Type := mkSession {
  generator : option Generator;
  password : option str;
  password_history : list str;
  last_option : option password_type
}.

(** The state after the four [if ... not in st.session_state] of a first run. *)
Definition initial : session :=
  {| generator := None; password := None; password_history := [];
     last_option := None |}.

(** The radio button together with the widgets of the chosen type. *)
Inductive widgets : Type :=
| RandomWidgets (length : nat)
    (inc_upper inc_num inc_lower inc_sym exc_sim no_rep : bool)
| MemorableWidgets (no_of_words : nat) (sep : str) (cap : bool) (suf : nat)
    (word_list : list str)
| PinWidgets (length : nat).

Definition chosen_option (w : widgets) : password_type :=
  match w with
  | RandomWidgets _ _ _ _ _ _ _ => RandomPassword
  | MemorableWidgets _ _ _ _ _ => MemorablePassword
  | PinWidgets _ => PinCode
  end.

(** Section 6 of the script: the generator for the widgets. *)
Definition selected_generator (w : widgets) : option Generator :=
  match w with
  | RandomWidgets length inc_upper inc_num inc_lower inc_sym exc_sim no_rep =>
      if negb (inc_upper || inc_lower || inc_num || inc_sym) then None
      else Some (GRandom (Dashboard.mkRandom length inc_upper inc_lower inc_num
                            inc_sym exc_sim no_rep))
  | MemorableWidgets no_of_words sep cap suf word_list =>
      Some (GMemorable (Dashboard.init_memorable no_of_words sep cap word_list suf))
  | PinWidgets length => Some (GPin length)
  end.

(** [password = pw; password_history.append(pw)] *)
Definition store (pw : str) (st : session) : session :=
  {| generator := generator st; password := Some pw;
     password_history := password_history st ++ [pw];
     last_option := last_option st |}.

(** [try: pw = generator.generate(); password = pw; history.append(pw)
    except ValueError: ...]: the new state and whether a password was
    generated.  An exception other than [ValueError] is not caught. *)
Definition try_generate (g : Generator) (st : session) : M (session * bool) :=
  fun r =>
    match generate g r with
    | (Ok pw, r') => (Ok (store pw st, true), r')
    | (Raise (ValueError _), r') => (Ok (st, false), r')
    | (Raise e, r') => (Raise e, r')
    end.

(** Sections 2 and 6 of the script: a changed option drops the shown
    password; the generator is rebuilt from the widgets. *)
Definition select (w : widgets) (st : session) : session :=
  let st :=
    if decide (last_option st = Some (chosen_option w)) then st
    else {| generator := generator st; password := None;
            password_history := password_history st;
            last_option := Some (chosen_option w) |} in
  {| generator := selected_generator w; password := password st;
     password_history := password_history st;
     last_option := last_option st |}.

(** Section 7, the button: the state and whether [st.rerun()] was called. *)
Definition on_button (button : bool) (st : session) : M (session * bool) :=
  if button then
    match generator st with
    | Some g => try_generate g st
    | None => ret (st, false)
    end
  else ret (st, false).

(** Section 7, the first run: a password is generated when none is shown. *)
Definition first_run (st : session) : M session :=
  match password st, generator st with
  | None, Some g => first <- try_generate g st ;; ret (fst first)
  | _, _ => ret st
  end.

(** One pass through the script: the state it leaves and whether it
    ended in [st.rerun()]. *)
Definition script_pass (w : widgets) (button : bool) (st : session)
  : M (session * bool) :=
  after_button <- on_button button (select w st) ;;
  let '(st, rerun) := after_button in
  if rerun : bool then ret (st, true)
  else st <- first_run st ;; ret (st, false).

(** A run of the script with its rerun, if any. *)
Definition script_run (w : widgets) (button : bool) (st : session) : M session :=
  pass <- script_pass w button st ;;
  let '(st, rerun) := pass in
  if rerun : bool then again <- script_pass w false st ;; ret (fst again)
  else ret st.

(** The sessions that runs of the script can lead to. *)
Inductive reachable : session -> Prop :=
| reachable_initial : reachable initial
| reachable_run st w button r st' r' :
    reachable st ->
    script_run w button st r = (Ok st', r') ->
    reachable st'.

End Page.

(** ** Vocabulary of the page's properties *)

(** The session as a run leaves it when no password is generated. *)
Definition entered (w : Page.widgets) (st : Page.session) : Page.session :=
  Page.mkSession (Page.selected_generator w)
    (if decide (Page.last_option st = Some (Page.chosen_option w))
     then Page.password st else None)
    (Page.password_history st)
    (Some (Page.chosen_option w)).

(** The session as a run leaves it when it generates [pw]. *)
Definition generated (w : Page.widgets) (st : Page.session) (pw : str)
  : Page.session :=
  Page.mkSession (Page.selected_generator w) (Some pw)
    (Page.password_history st ++ [pw])
    (Some (Page.chosen_option w)).

(** The displayed password is the last one of the history. *)
Definition shows_latest (st : Page.session) : Prop :=
  ∀ pw, Page.password st = Some pw -> last (Page.password_history st) = Some pw.

(** ** Vocabulary of the PIN properties *)

(** The three rejection tests of [PinCodeGenerator.generate]. *)
Definition rejected (pin : str) : bool :=
  bool_decide (pin ∈ PasswordGenerators.blocked)
  || PasswordGenerators.is_repeating pin
  || PasswordGenerators.is_sequential pin.

(** The [i]-th candidate drawn from a source at [r]: [length] digits
    starting [i * length] draws further. *)
Definition candidate (r : Rng) (length i : nat) : str :=
  picks "0"%char digits (draws r) (cursor r + i * length) length.

(** All the digits of a non-empty PIN are the same one. *)
Definition single_repeated_digit (pin : str) : Prop :=
  ∃ c, pin ≠ [] ∧ Forall (fun x => x = c) pin.

(** Every adjacent pair of digits differs by exactly [d]. *)
Definition monotonic_by (d : Z) (pin : str) : Prop :=
  ∀ i a b, pin !! i = Some a -> pin !! S i = Some b ->
           (int_of_digit b - int_of_digit a = d)%Z.

(** A run of at least two digits ascending or descending by one. *)
Definition sequential_run (pin : str) : Prop :=
  2 ≤ length pin ∧ (monotonic_by 1 pin ∨ monotonic_by (-1) pin).

(** ** Vocabulary of the passphrase properties *)

(** The configuration of the specification's example, for each module. *)
Definition example_vocabulary : list str :=
  [str_of "apple"; str_of "banana"; str_of "kiwi"].
Definition library_example : PasswordGenerators.MemorablePasswordGenerator :=
  PasswordGenerators.mkMemorable 4 (str_of "-") true 2 example_vocabulary.
Definition dashboard_example : Dashboard.MemorablePasswordGenerator :=
  Dashboard.init_memorable 4 (str_of "-") true example_vocabulary 2.

(** [Word-Word-Word-Word] followed by two decimal digits, each word a
    capitalized word of [vocab]. *)
Definition matches_pattern (vocab : list str) (pw : str) : Prop :=
  ∃ w1 w2 w3 w4 d1 d2,
    w1 ∈ vocab ∧ w2 ∈ vocab ∧ w3 ∈ vocab ∧ w4 ∈ vocab
    ∧ d1 ∈ digits ∧ d2 ∈ digits
    ∧ pw = capitalize w1 ++ str_of "-" ++ capitalize w2 ++ str_of "-"
           ++ capitalize w3 ++ str_of "-" ++ capitalize w4 ++ [d1; d2].

(** The words the specification lets the sampler see: those of 4 to 7
    characters, or the whole vocabulary when there is none. *)
Definition spec_filtered (vocab : list str) : list str :=
  match filter (fun w => 4 ≤ length w ≤ 7) vocab with
  | [] => vocab
  | fv => fv
  end.

(** ** The strength score as the specification words it *)

Module StrengthSpec.
Section Scorer.
Context {C : Type}.
Variables has_uppercase has_lowercase has_digit has_symbol : list C -> bool.

Definition lengthScore (pw : list C) : Q :=
  if (Z.of_nat (length pw) <=? 4)%Z then 0%Q
  else (inject_Z (Z.min (Z.of_nat (length pw) - 4) 16) / 16 * 40)%Q.

Definition classes (pw : list C) : Z :=
  Z.of_nat (length (filter (fun p => p pw = true)
              [has_uppercase; has_lowercase; has_digit; has_symbol])).

Definition diversityScore (pw : list C) : Q :=
  (inject_Z (classes pw) / 4 * 40)%Q.

Definition bonus (pw : list C) : Z :=
  if has_digit pw && has_symbol pw then 20%Z
  else if xorb (has_digit pw) (has_symbol pw) then 10%Z
  else 0%Z.

Definition clamp (lo hi x : Z) : Z := Z.max lo (Z.min hi x).

Definition score (pw : list C) : Z :=
  clamp 0 100
    (Dashboard.py_round
       (lengthScore pw + diversityScore pw + inject_Z (bonus pw))%Q).

Definition label (sc : Z) : string :=
  if (sc <? 40)%Z then "Weak"%string
  else if (sc <? 60)%Z then "Medium"%string
  else if (sc <? 80)%Z then "Strong"%string
  else "Very Strong"%string.
End Scorer.
End StrengthSpec.

(** The scorer on ASCII text. *)
Definition ascii_isalnum (c : ascii) : bool :=
  is_ascii_upper c || is_ascii_lower c || is_ascii_digit c.
Definition ascii_strength (pw : string) : Z * string :=
  Dashboard.compute_strength is_ascii_upper is_ascii_lower is_ascii_digit
    ascii_isalnum (str_of pw).

(** ** Vocabulary of the scorer's properties *)

(** The score [compute_strength] gives a non-empty string, from its
    length and its four class tests. *)
Definition score_of (length : Z) (has_upper has_lower has_digit has_symbol : bool)
  : Z :=
  let length_score : Q :=
    if (4 <? length)%Z
    then (inject_Z (Z.min (length - 4) 16) / 16 * 40)%Q
    else 0%Q in
  let classes :=
    (Z.b2z has_upper + Z.b2z has_lower + Z.b2z has_digit + Z.b2z has_symbol)%Z in
  let diversity_score : Q := (inject_Z classes / 4 * 40)%Q in
  let bonus :=
    if has_digit && has_symbol then 20%Z
    else if has_digit || has_symbol then 10%Z else 0%Z in
  Z.min 100 (Dashboard.py_round (length_score + diversity_score + inject_Z bonus)%Q).

(** The cases of [score_of]: length at most 4, or 1 to 16 length points. *)
Ltac score_cases n :=
  unfold score_of;
  let Hn := fresh "Hn" in
  destruct (Z.ltb_spec 4 n) as [Hn|Hn];
  [ let m := fresh "m" in
    let Hm := fresh "Hm" in
    let Hfull := fresh "Hfull" in
    set (m := Z.min (n - 4) 16);
    assert (Hfull : m = 16%Z <-> (20 <= n)%Z) by lia;
    assert (Hm : (m = 1 ∨ m = 2 ∨ m = 3 ∨ m = 4 ∨ m = 5 ∨ m = 6 ∨ m = 7 ∨ m = 8
                  ∨ m = 9 ∨ m = 10 ∨ m = 11 ∨ m = 12 ∨ m = 13 ∨ m = 14
                  ∨ m = 15 ∨ m = 16)%Z) by lia;
    clearbody m;
    repeat (destruct Hm as [Hm|Hm]); subst m
  | ];
  match goal with
  | |- context [Z.min 100 ?e] =>
      let v := eval vm_compute in (Z.min 100 e) in
      change (Z.min 100 e) with v
  end.

(** [compute_strength] on ASCII text given as a list of characters. *)
Definition ascii_compute_strength (pw : str) : Z * string :=
  Dashboard.compute_strength is_ascii_upper is_ascii_lower is_ascii_digit
    ascii_isalnum pw.

(** * Properties *)

(** ** Strength scorer *)

Example strength_empty : ascii_strength "" = (0%Z, "Weak"%string).
Proof. reflexivity. Qed.

Example strength_aaaa : ascii_strength "aaaa" = (10%Z, "Weak"%string).
Proof. vm_compute. reflexivity. Qed.

(** Length 5 gives 2.5 + 10 = 12.5, a tie, rounded to the even 12. *)
Example strength_aaaaa : ascii_strength "aaaaa" = (12%Z, "Weak"%string).
Proof. vm_compute. reflexivity. Qed.

Example strength_troubadour :
  ascii_strength "Tr0ub4dor&3" = (78%Z, "Strong"%string).
Proof. vm_compute. reflexivity. Qed.

Lemma py_round_nonneg (x : Q) : (0 <= x)%Q -> (0 <= Dashboard.py_round x)%Z.
Proof.
  intros Hx. unfold Dashboard.py_round.
  assert (Hf : (0 <= Qfloor x)%Z).
  { change 0%Z with (Qfloor 0). by apply Qfloor_resp_le. }
  destruct (x - inject_Z (Qfloor x) ?= 1 # 2)%Q; [destruct (Z.even _)| |]; lia.
Qed.

Lemma inject_Z_nonneg (z : Z) : (0 <= z)%Z -> (0 <= inject_Z z)%Q.
Proof. intros Hz. unfold Qle. simpl. lia. Qed.

Lemma Qplus_nonneg (x y : Q) : (0 <= x)%Q -> (0 <= y)%Q -> (0 <= x + y)%Q.
Proof. intros Hx Hy. apply (Qplus_le_compat 0 x 0 y Hx Hy). Qed.

Lemma scaled_nonneg (z : Z) (p q : positive) :
  (0 <= z)%Z -> (0 <= inject_Z z / (Zpos p # 1) * (Zpos q # 1))%Q.
Proof.
  intros Hz. apply Qmult_le_0_compat; [|done].
  apply Qle_shift_div_l; [done|]. rewrite Qmult_0_l. by apply inject_Z_nonneg.
Qed.

Section StrengthRefinement.
Context {C : Type}.
Variables isupper islower isdigit isalnum : C -> bool.

Let has_uppercase := existsb isupper.
Let has_lowercase := existsb islower.
Let has_digit := existsb isdigit.
Let has_symbol := existsb (fun c => negb (isalnum c)).

Lemma classes_count (pw : list C) :
  StrengthSpec.classes has_uppercase has_lowercase has_digit has_symbol pw
  = (Z.b2z (has_uppercase pw) + Z.b2z (has_lowercase pw)
     + Z.b2z (has_digit pw) + Z.b2z (has_symbol pw))%Z.
Proof.
  unfold StrengthSpec.classes.
  rewrite !filter_cons, filter_nil.
  destruct (has_uppercase pw), (has_lowercase pw), (has_digit pw),
    (has_symbol pw); repeat case_decide; try congruence; reflexivity.
Qed.

Lemma raw_score_nonneg (pw : list C) :
  (0 <= StrengthSpec.lengthScore pw
        + StrengthSpec.diversityScore has_uppercase has_lowercase
            has_digit has_symbol pw
        + inject_Z (StrengthSpec.bonus has_digit has_symbol pw))%Q.
Proof.
  repeat apply Qplus_nonneg.
  - unfold StrengthSpec.lengthScore.
    destruct (Z.leb_spec (Z.of_nat (length pw)) 4); [done|].
    apply scaled_nonneg. lia.
  - unfold StrengthSpec.diversityScore. apply scaled_nonneg.
    rewrite classes_count.
    destruct (has_uppercase pw), (has_lowercase pw), (has_digit pw),
      (has_symbol pw); simpl; lia.
  - apply inject_Z_nonneg. unfold StrengthSpec.bonus.
    repeat case_match; lia.
Qed.

(** C2: for every input string, the scorer of [dasshboard.py] returns
    the score [round(lengthScore + diversityScore + bonus)] clamped to
    [0, 100] (with [round] the rounding of the source language: nearest
    integer, ties to even), where lengthScore, diversityScore (count of
    satisfied class predicates / 4 * 40) and bonus (20, 10 for exactly
    one of digit and symbol, 0) are those of the specification, and the
    label given by the thresholds 40, 60 and 80. *)
Theorem compute_strength_meets_spec (pw : list C) :
  Dashboard.compute_strength isupper islower isdigit isalnum pw
  = (StrengthSpec.score has_uppercase has_lowercase has_digit has_symbol pw,
     StrengthSpec.label
       (StrengthSpec.score has_uppercase has_lowercase has_digit
          has_symbol pw)).
Proof.
  destruct pw as [|c pw']; [reflexivity|]. set (pw := c :: pw').
  pose proof (raw_score_nonneg pw) as Hnn. apply py_round_nonneg in Hnn.
  assert (Hscore :
    StrengthSpec.score has_uppercase has_lowercase has_digit has_symbol pw
    = Z.min 100
        (Dashboard.py_round
           ((if (4 <? Z.of_nat (length pw))%Z
             then inject_Z (Z.min (Z.of_nat (length pw) - 4) 16) / 16 * 40
             else 0)
            + inject_Z (Z.b2z (has_uppercase pw) + Z.b2z (has_lowercase pw)
                        + Z.b2z (has_digit pw) + Z.b2z (has_symbol pw))
              / 4 * 40
            + inject_Z (if has_digit pw && has_symbol pw then 20
                        else if has_digit pw || has_symbol pw then 10
                        else 0))%Q)).
  { unfold StrengthSpec.score, StrengthSpec.clamp.
    rewrite Z.max_r by lia.
    unfold StrengthSpec.lengthScore, StrengthSpec.diversityScore,
      StrengthSpec.bonus.
    rewrite classes_count. rewrite Z.ltb_antisym.
    destruct (Z.of_nat (length pw) <=? 4)%Z; simpl negb;
      destruct (has_digit pw), (has_symbol pw); reflexivity. }
  rewrite Hscore. reflexivity.
Qed.
End StrengthRefinement.

(** ** Character pools *)

Lemma replace_empty_filter (old : ascii) (x : str) :
  replace old [] x = filter (fun c => c ≠ old) x.
Proof.
  unfold replace. induction x as [|c x IH]; [reflexivity|].
  rewrite fmap_cons, filter_cons. simpl. rewrite IH.
  destruct (decide (c = old)); case_decide; done.
Qed.

Lemma foldl_replace_filter (olds x : str) :
  foldl (fun cs char => replace char [] cs) x olds
  = filter (fun c => c ∉ olds) x.
Proof.
  revert x. induction olds as [|o olds IH]; intros x; simpl.
  - induction x as [|c x IHx]; [reflexivity|].
    rewrite filter_cons_True by apply not_elem_of_nil. by rewrite <- IHx.
  - rewrite IH, replace_empty_filter, list_filter_filter.
    apply list_filter_iff. intros c. rewrite not_elem_of_cons. tauto.
Qed.

Lemma similar_same_set (c : ascii) :
  c ∉ PasswordGenerators.similar_chars ↔ c ∉ str_of "Il1O0".
Proof.
  unfold PasswordGenerators.similar_chars. simpl.
  rewrite !not_elem_of_cons. tauto.
Qed.

(** The pool of [dasshboard.py] without the exclusion is the pool of
    [password_generators.py] without it. *)
Lemma chars_no_exclusion (len : nat) (up lo num sym nr : bool) :
  Dashboard.chars (Dashboard.mkRandom len up lo num sym false nr)
  = PasswordGenerators.characters up lo num sym false.
Proof. reflexivity. Qed.

Lemma chars_exclusion_filter (len : nat) (up lo num sym nr : bool) :
  Dashboard.chars (Dashboard.mkRandom len up lo num sym true nr)
  = filter (fun c => c ∉ str_of "Il1O0")
      (Dashboard.chars (Dashboard.mkRandom len up lo num sym false nr)).
Proof. exact (foldl_replace_filter (str_of "Il1O0") _). Qed.

Lemma characters_exclusion_filter (up lo num sym : bool) :
  PasswordGenerators.characters up lo num sym true
  = filter (fun c => c ∉ str_of "Il1O0")
      (PasswordGenerators.characters up lo num sym false).
Proof.
  unfold PasswordGenerators.characters. apply list_filter_iff.
  intros c. apply similar_same_set.
Qed.

(** C8: for every flag configuration, in both modules, the pool with
    [excludeSimilar] is the pool without it from which exactly the
    characters I, l, 1, O, 0 were removed, the order of the others kept:
    a character is in the one iff it is in the other and is none of the
    five.  The pool of digits and uppercase letters has 36 characters
    without the exclusion and 32 with it. *)
Theorem exclude_similar_removes_exactly (len : nat) (up lo num sym nr : bool) :
  let similar := str_of "Il1O0" in
  let lib := PasswordGenerators.characters up lo num sym in
  let dash ex := Dashboard.chars (Dashboard.mkRandom len up lo num sym ex nr) in
  lib true = filter (fun c => c ∉ similar) (lib false)
  ∧ dash true = filter (fun c => c ∉ similar) (dash false)
  ∧ (∀ c, c ∈ lib true ↔ c ∈ lib false ∧ c ∉ similar)
  ∧ (∀ c, c ∈ dash true ↔ c ∈ dash false ∧ c ∉ similar)
  ∧ length (PasswordGenerators.characters true false true false false) = 36
  ∧ length (PasswordGenerators.characters true false true false true) = 32
  ∧ length (Dashboard.chars
              (Dashboard.mkRandom len true false true false false nr)) = 36
  ∧ length (Dashboard.chars
              (Dashboard.mkRandom len true false true false true nr)) = 32.
Proof.
  intros similar lib dash. subst lib dash. cbv beta.
  rewrite characters_exclusion_filter, chars_exclusion_filter.
  split_and!; try reflexivity.
  all: intros c; rewrite list_elem_of_filter; tauto.
Qed.

Lemma chars_eq_characters (len : nat) (up lo num sym ex nr : bool) :
  Dashboard.chars (Dashboard.mkRandom len up lo num sym ex nr)
  = PasswordGenerators.characters up lo num sym ex.
Proof.
  destruct ex.
  - rewrite chars_exclusion_filter, characters_exclusion_filter.
    by rewrite chars_no_exclusion.
  - apply chars_no_exclusion.
Qed.

(** C10: for every combination of the four class flags and the
    exclusion flag, the pool built in [generate] of [dasshboard.py] is,
    character for character, the pool built in [__init__] of
    [password_generators.py]. *)
Theorem pools_agree (len : nat) (up lo num sym ex nr : bool) :
  Dashboard.chars (Dashboard.mkRandom len up lo num sym ex nr)
  = PasswordGenerators.characters up lo num sym ex.
Proof.
  destruct ex; [|reflexivity].
  rewrite chars_exclusion_filter, chars_no_exclusion.
  apply list_filter_iff. intros c. symmetry. apply similar_same_set.
Qed.

(** ** Draws from the random source *)

Lemma advance_0 (r : Rng) : advance r 0 = r.
Proof. destruct r as [f c]. unfold advance. simpl. by rewrite Nat.add_0_r. Qed.

Lemma advance_S (r : Rng) (n : nat) :
  advance (mkRng (draws r) (S (cursor r))) n = advance r (S n).
Proof. unfold advance. simpl. f_equal. lia. Qed.

Lemma advance_advance (r : Rng) (n m : nat) :
  advance (advance r n) m = advance r (n + m).
Proof. unfold advance. simpl. f_equal. lia. Qed.

Lemma choice_eq {A} (d : A) (l : list A) (r : Rng) :
  l ≠ [] ->
  choice l r = (Ok (nth (draws r (cursor r) mod length l) l d),
                mkRng (draws r) (S (cursor r))).
Proof.
  intros Hl. destruct l as [|a l]; [done|].
  unfold choice, bind, randbelow.
  set (l' := a :: l). set (j := draws r (cursor r) mod length l').
  assert (Hj : j < length l') by (apply Nat.mod_upper_bound; done).
  destruct (lookup_lt_is_Some_2 l' j Hj) as [x Hx]. rewrite Hx.
  unfold ret. do 2 f_equal. symmetry. by apply nth_lookup_Some.
Qed.

Lemma choice_empty {A} (r : Rng) : @choice A [] r = (Raise IndexError, r).
Proof. reflexivity. Qed.

Lemma replicateM_choice_eq {A} (d : A) (l : list A) (n : nat) (r : Rng) :
  l ≠ [] ->
  replicateM n (choice l) r
  = (Ok (picks d l (draws r) (cursor r) n), advance r n).
Proof.
  intros Hl. revert r. induction n as [|n IH]; intros r.
  - simpl. unfold ret. by rewrite advance_0.
  - simpl. unfold bind at 1. rewrite (choice_eq d) by done.
    unfold bind at 1. rewrite IH. unfold ret. by rewrite advance_S.
Qed.

Lemma replicateM_choice_empty {A} (n : nat) (r : Rng) :
  replicateM (S n) (@choice A []) r = (Raise IndexError, r).
Proof. reflexivity. Qed.

Lemma length_picks {A} (d : A) l f c n : length (picks d l f c n) = n.
Proof. revert c. induction n as [|n IH]; intros c; simpl; [done|]. by rewrite IH. Qed.

Lemma picks_elem_of {A} (d : A) l f c n :
  l ≠ [] -> Forall (fun x => x ∈ l) (picks d l f c n).
Proof.
  intros Hl. revert c. induction n as [|n IH]; intros c; simpl; [constructor|].
  constructor; [|apply IH].
  apply list_elem_of_In, nth_In, Nat.mod_upper_bound.
  by destruct l.
Qed.

(** ** The PIN generator of [password_generators.py] *)

Lemma digits_nonempty : digits ≠ [].
Proof. done. Qed.

Lemma attempt_S (n len : nat) (r : Rng) :
  PasswordGenerators.attempt (S n) len r
  = if rejected (candidate r len 0)
    then PasswordGenerators.attempt n len (advance r len)
    else (Ok (candidate r len 0), advance r len).
Proof.
  cbn [PasswordGenerators.attempt]. unfold bind at 1.
  rewrite (replicateM_choice_eq "0"%char) by apply digits_nonempty.
  unfold rejected, candidate. rewrite Nat.add_0_r.
  destruct (bool_decide _); [done|].
  destruct (PasswordGenerators.is_repeating _); [done|].
  by destruct (PasswordGenerators.is_sequential _).
Qed.

Lemma candidate_advance (r : Rng) (len i : nat) :
  candidate (advance r len) len i = candidate r len (S i).
Proof. unfold candidate, advance. simpl. f_equal. lia. Qed.

(** The loop returns the first accepted candidate among the first [n],
    or raises after [n] rejected ones. *)
Lemma attempt_outcome (n len : nat) (r : Rng) :
  (∃ k, k < n
        ∧ (∀ i, i < k -> rejected (candidate r len i) = true)
        ∧ rejected (candidate r len k) = false
        ∧ PasswordGenerators.attempt n len r
          = (Ok (candidate r len k), advance r (S k * len)))
  ∨ ((∀ i, i < n -> rejected (candidate r len i) = true)
     ∧ PasswordGenerators.attempt n len r
       = (Raise PinExhaustionError, advance r (n * len))).
Proof.
  revert r. induction n as [|n IH]; intros r.
  - right. split; [intros i Hi; lia|]. simpl. unfold raise.
    by rewrite advance_0.
  - rewrite attempt_S. destruct (rejected (candidate r len 0)) eqn:Hrej.
    + destruct (IH (advance r len)) as [(k & Hk & Hbefore & Hat & Hrun)|[Hall Hrun]].
      * left. exists (S k). split; [lia|split; [|split]].
        -- intros [|i] Hi; [done|]. rewrite <- candidate_advance.
           apply Hbefore. lia.
        -- by rewrite <- candidate_advance.
        -- rewrite Hrun, candidate_advance, advance_advance.
           do 2 f_equal; lia.
      * right. split.
        -- intros [|i] Hi; [done|]. rewrite <- candidate_advance.
           apply Hall. lia.
        -- rewrite Hrun, advance_advance. do 2 f_equal; lia.
    + left. exists 0. split; [lia|split; [intros i Hi; lia|split; [done|]]].
      do 2 f_equal; lia.
Qed.

Lemma is_repeating_iff (pin : str) :
  PasswordGenerators.is_repeating pin = true ↔ single_repeated_digit pin.
Proof.
  unfold PasswordGenerators.is_repeating, single_repeated_digit.
  rewrite bool_decide_eq_true. split.
  - intros Hsize. apply size_1_elem_of in Hsize as [c Hc].
    exists c. split.
    + intros ->. set_solver.
    + apply Forall_forall. intros x Hx.
      apply (elem_of_list_to_set (C := gset ascii)) in Hx. set_solver.
  - intros (c & Hne & Hall).
    assert (Heq : (list_to_set pin : gset ascii) = {[ c ]}).
    { apply set_eq. intros x. rewrite elem_of_list_to_set, elem_of_singleton.
      rewrite Forall_forall in Hall. split; [by apply Hall|].
      intros ->. destruct pin as [|a pin]; [done|].
      rewrite (Hall a) at 1; [|left]. left. }
    rewrite Heq. apply size_singleton.
Qed.

Lemma forallb_diffs (k : Z) (pin : str) :
  forallb (fun d => (d =? k)%Z) (PasswordGenerators.diffs pin) = true
  ↔ monotonic_by k pin.
Proof.
  unfold monotonic_by. induction pin as [|a [|b rest] IH].
  - split; [intros _ i x y Hx; by rewrite lookup_nil in Hx|done].
  - split; [|done]. intros _ [|i] x y _ Hy; by rewrite ?lookup_nil in Hy.
  - change (PasswordGenerators.diffs (a :: b :: rest))
      with ((int_of_digit b - int_of_digit a)%Z
            :: PasswordGenerators.diffs (b :: rest)).
    cbn [forallb]. rewrite andb_true_iff, IH, Z.eqb_eq. split.
    + intros [Hab Hrest] [|i] x y Hx Hy.
      * by injection Hx as <-; injection Hy as <-.
      * by apply (Hrest i).
    + intros Hall. split; [by apply (Hall 0)|].
      intros i x y Hx Hy. by apply (Hall (S i)).
Qed.

Lemma is_sequential_iff (pin : str) :
  PasswordGenerators.is_sequential pin = true ↔ sequential_run pin.
Proof.
  unfold PasswordGenerators.is_sequential, sequential_run.
  destruct (Nat.ltb_spec (length pin) 2) as [Hlt|Hge].
  - split; [done|]. intros [? _]. lia.
  - rewrite orb_true_iff, !forallb_diffs. tauto.
Qed.

Lemma rejected_false_iff (pin : str) :
  rejected pin = false
  ↔ (pin ∉ PasswordGenerators.blocked)
    ∧ ¬ single_repeated_digit pin ∧ ¬ sequential_run pin.
Proof.
  unfold rejected. rewrite !orb_false_iff, bool_decide_eq_false.
  rewrite <- is_repeating_iff, <- is_sequential_iff.
  rewrite !not_true_iff_false. tauto.
Qed.

Lemma blocked_elements (pin : str) :
  pin ∈ PasswordGenerators.blocked
  ↔ pin ∈ [str_of "1234"; str_of "0000"; str_of "1111"; str_of "2580"].
Proof.
  unfold PasswordGenerators.blocked.
  rewrite !elem_of_union, !elem_of_singleton, !elem_of_cons, elem_of_nil.
  tauto.
Qed.

Lemma candidate_digits (r : Rng) (len i : nat) :
  length (candidate r len i) = len
  ∧ Forall (fun c => c ∈ digits) (candidate r len i).
Proof.
  split; [apply length_picks|]. apply picks_elem_of, digits_nonempty.
Qed.

(** X11: every PIN returned by the generator of [password_generators.py]
    passed the three tests: it is none of 1234, 0000, 1111, 2580, not one
    repeated digit and not a run. *)
Lemma library_pin_safe (len : nat) (oracle : nat -> nat) (pin : str) :
  run (PasswordGenerators.generate_pin len) oracle = Ok pin ->
  (pin ∉ [str_of "1234"; str_of "0000"; str_of "1111"; str_of "2580"])
  ∧ ¬ single_repeated_digit pin ∧ ¬ sequential_run pin.
Proof.
  unfold run, PasswordGenerators.generate_pin. intros Hrun.
  rewrite <- blocked_elements. apply rejected_false_iff.
  destruct (attempt_outcome PasswordGenerators.max_attempts len (mkRng oracle 0))
    as [(k & _ & _ & Hacc & Heq)|[_ Heq]]; rewrite Heq in Hrun; simpl in Hrun.
  - by injection Hrun as <-.
  - discriminate.
Qed.

(** C1 (as the code has it): the PIN generator of [dasshboard.py] applies
    no filter.  On the draws 1, 2, 3, 4 (and 0, 0, 0, 0) its
    [generate()] for length 4 returns 1234 (and 0000), which are in the
    blocked set of [password_generators.py]; 1234 is moreover an ascending
    run and 0000 a single repeated digit. *)
Theorem dashboard_pin_unfiltered :
  run (Dashboard.generate_pin 4) (fun i => S i) = Ok (str_of "1234")
  ∧ run (Dashboard.generate_pin 4) (fun _ => 0) = Ok (str_of "0000")
  ∧ str_of "1234" ∈ PasswordGenerators.blocked
  ∧ str_of "0000" ∈ PasswordGenerators.blocked
  ∧ sequential_run (str_of "1234")
  ∧ single_repeated_digit (str_of "0000").
Proof.
  split; [reflexivity|]. split; [reflexivity|].
  split; [apply blocked_elements; set_solver|].
  split; [apply blocked_elements; set_solver|].
  split; [by apply is_sequential_iff|].
  exists "0"%char. split; [done|]. by repeat constructor.
Qed.

(** C7: for every length and every random source, [generate()] of
    [password_generators.py] either returns the first accepted candidate,
    a string of exactly [length] decimal digits, after drawing [k + 1]
    candidates with [k < 1000] (the [k] before it all rejected), or, all
    of the first 1000 candidates being rejected, raises the exhaustion
    error after exactly 1000 candidates; [generate()] of [dasshboard.py]
    returns a string of [length] decimal digits after a single candidate. *)
Theorem pin_generate_contract (len : nat) (oracle : nat -> nat) :
  let r0 := mkRng oracle 0 in
  ((∃ k, k < 1000
         ∧ (∀ i, i < k -> rejected (candidate r0 len i) = true)
         ∧ rejected (candidate r0 len k) = false
         ∧ run (PasswordGenerators.generate_pin len) oracle
           = Ok (candidate r0 len k)
         ∧ length (candidate r0 len k) = len
         ∧ Forall (fun c => c ∈ digits) (candidate r0 len k)
         ∧ consumed (PasswordGenerators.generate_pin len) oracle = S k * len)
   ∨ ((∀ i, i < 1000 -> rejected (candidate r0 len i) = true)
      ∧ run (PasswordGenerators.generate_pin len) oracle
        = Raise PinExhaustionError
      ∧ consumed (PasswordGenerators.generate_pin len) oracle = 1000 * len))
  ∧ (∃ pin, run (Dashboard.generate_pin len) oracle = Ok pin
            ∧ length pin = len
            ∧ Forall (fun c => c ∈ digits) pin
            ∧ consumed (Dashboard.generate_pin len) oracle = len).
Proof.
  intros r0. split.
  - unfold run, consumed, PasswordGenerators.generate_pin.
    fold r0.
    destruct (attempt_outcome PasswordGenerators.max_attempts len r0)
      as [(k & Hk & Hbefore & Hacc & Heq)|[Hall Heq]]; rewrite Heq.
    + left. exists k. pose proof (candidate_digits r0 len k) as [Hlen Hdig].
      split_and!; try done; simpl; lia.
    + right. split_and!; try done.
  - unfold run, consumed, Dashboard.generate_pin, choices.
    rewrite (replicateM_choice_eq "0"%char) by apply digits_nonempty.
    eexists. split_and!; [reflexivity| | |reflexivity].
    + apply length_picks.
    + apply picks_elem_of, digits_nonempty.
Qed.

Lemma one_digit_rejected (r : Rng) (i : nat) : rejected (candidate r 1 i) = true.
Proof.
  unfold rejected.
  assert (Hrep : PasswordGenerators.is_repeating (candidate r 1 i) = true).
  { apply is_repeating_iff. unfold candidate. simpl.
    eexists. split; [done|]. by repeat constructor. }
  rewrite Hrep. by rewrite orb_true_r.
Qed.

(** C9: the generator of [password_generators.py] built with length 1
    never returns: every one-digit candidate is a repeated digit, all
    1000 attempts are rejected and the call raises the exhaustion error. *)
Theorem pin_length_one_always_exhausts (oracle : nat -> nat) :
  (∀ r i, PasswordGenerators.is_repeating (candidate r 1 i) = true)
  ∧ run (PasswordGenerators.generate_pin 1) oracle = Raise PinExhaustionError
  ∧ consumed (PasswordGenerators.generate_pin 1) oracle = 1000.
Proof.
  split.
  { intros r i. apply is_repeating_iff. unfold candidate. simpl.
    eexists. split; [done|]. by repeat constructor. }
  unfold run, consumed, PasswordGenerators.generate_pin.
  destruct (attempt_outcome PasswordGenerators.max_attempts 1 (mkRng oracle 0))
    as [(k & _ & _ & Hacc & _)|[_ Heq]].
  - by rewrite one_digit_rejected in Hacc.
  - rewrite Heq. split; reflexivity.
Qed.

(** ** Sampling without replacement *)

(** One step of the selection: the drawn element and the shrunk pool
    together are the pool. *)
Lemma swap_remove_perm {A} (pool : list A) (j : nat) (x y : A) :
  pool !! j = Some x -> last pool = Some y ->
  x :: removelast (<[j := y]> pool) ≡ₚ pool.
Proof.
  intros Hx Hy. apply last_Some in Hy as [init ->].
  destruct (decide (j < length init)) as [Hlt|Hge].
  - rewrite insert_app_l by done. rewrite removelast_last.
    rewrite lookup_app_l in Hx by done.
    apply list_elem_of_split_length in Hx as (l1 & l2 & -> & ->).
    rewrite insert_app_r_alt by done. rewrite Nat.sub_diag. simpl.
    rewrite <- app_assoc. simpl. rewrite <- !Permutation_middle.
    by rewrite app_nil_r.
  - assert (Hj : j = length init).
    { apply lookup_lt_Some in Hx. rewrite length_app in Hx. simpl in Hx. lia. }
    subst j. rewrite list_lookup_middle in Hx by done. injection Hx as ->.
    rewrite insert_app_r_alt by done. rewrite Nat.sub_diag. simpl.
    rewrite removelast_last. by rewrite Permutation_app_comm.
Qed.

Lemma length_removelast {A} (l : list A) : length (removelast l) = length l - 1.
Proof.
  destruct l as [|a l] using rev_ind; [done|].
  rewrite removelast_last, length_app. simpl. lia.
Qed.

Lemma sample_loop_spec {A} (k : nat) (pool : list A) (r : Rng) :
  k ≤ length pool ->
  ∃ xs rest, sample_loop k pool r = (Ok xs, advance r k)
             ∧ length xs = k ∧ xs ++ rest ≡ₚ pool.
Proof.
  revert pool r. induction k as [|k IH]; intros pool r Hk.
  - exists [], pool. simpl. unfold ret. by rewrite advance_0.
  - cbn [sample_loop]. unfold bind at 1, randbelow.
    set (j := draws r (cursor r) mod length pool).
    assert (Hj : j < length pool) by (apply Nat.mod_upper_bound; lia).
    destruct (lookup_lt_is_Some_2 pool j Hj) as [x Hx]. rewrite Hx.
    destruct (last pool) as [y|] eqn:Hy; cycle 1.
    { apply last_None in Hy. subst pool. simpl in Hk. lia. }
    set (pool' := removelast (<[j := y]> pool)).
    destruct (IH pool' (mkRng (draws r) (S (cursor r))))
      as (xs & rest & Hrun & Hlen & Hperm).
    { unfold pool'. rewrite length_removelast, length_insert. lia. }
    exists (x :: xs), rest. unfold bind. rewrite Hrun. unfold ret.
    split_and!.
    + by rewrite advance_S.
    + simpl. by rewrite Hlen.
    + simpl. rewrite Hperm. by apply swap_remove_perm.
Qed.

(** A sample of [k] elements of a duplicate-free population: [k]
    distinct elements of it. *)
Lemma sample_spec {A} (population : list A) (k : nat) (r : Rng) :
  k ≤ length population -> NoDup population ->
  ∃ xs, sample population k r = (Ok xs, advance r k)
        ∧ length xs = k ∧ NoDup xs ∧ Forall (fun x => x ∈ population) xs.
Proof.
  intros Hk Hnd. unfold sample.
  destruct (Nat.ltb_spec (length population) k) as [?|_]; [lia|].
  destruct (sample_loop_spec k population r Hk) as (xs & rest & Hrun & Hlen & Hperm).
  exists xs. split_and!; try done.
  - rewrite <- Hperm in Hnd. by apply NoDup_app in Hnd as [? _].
  - apply Forall_forall. intros x Hx. rewrite <- Hperm. apply elem_of_app. by left.
Qed.

Lemma sample_too_large {A} (population : list A) (k : nat) (r : Rng) :
  length population < k ->
  sample population k r = (Raise InsufficientVocabularyError, r).
Proof.
  intros Hk. unfold sample.
  by destruct (Nat.ltb_spec (length population) k) as [_|?]; [|lia].
Qed.

(** ** Random passwords *)

Lemma characters_NoDup (up lo num sym ex : bool) :
  NoDup (PasswordGenerators.characters up lo num sym ex).
Proof.
  destruct ex.
  - rewrite characters_exclusion_filter. apply NoDup_filter.
    destruct up, lo, num, sym; apply (bool_decide_unpack _); by vm_compute.
  - destruct up, lo, num, sym; apply (bool_decide_unpack _); by vm_compute.
Qed.

(** The pool is empty exactly when no class is enabled: the exclusion
    never empties a class. *)
Lemma characters_empty_iff (up lo num sym ex : bool) :
  PasswordGenerators.characters up lo num sym ex = []
  ↔ up = false ∧ lo = false ∧ num = false ∧ sym = false.
Proof.
  split.
  - destruct up, lo, num, sym, ex; by vm_compute.
  - intros (-> & -> & -> & ->). by destruct ex.
Qed.

Lemma library_no_repeat (len : nat) (up lo num sym ex : bool) (r : Rng) :
  let pool := PasswordGenerators.characters up lo num sym ex in
  let g := PasswordGenerators.init len up lo num sym ex true in
  (len ≤ length pool ->
   ∃ pw, PasswordGenerators.generate g r = (Ok pw, advance r len)
         ∧ length pw = len ∧ NoDup pw ∧ Forall (fun c => c ∈ pool) pw)
  ∧ (length pool < len ->
     PasswordGenerators.generate g r = (Raise InsufficientPoolError, r)).
Proof.
  intros pool g. unfold PasswordGenerators.generate. simpl. fold pool.
  split; intros Hlen.
  - destruct (Nat.ltb_spec (length pool) len) as [?|_]; [lia|].
    apply sample_spec; [done|apply characters_NoDup].
  - by destruct (Nat.ltb_spec (length pool) len) as [_|?]; [|lia].
Qed.

Lemma dashboard_empty_pool (g : Dashboard.RandomPasswordGenerator) (r : Rng) :
  Dashboard.chars g = [] -> Dashboard.generate g r = (Raise ConfigError, r).
Proof. intros Hpool. unfold Dashboard.generate. by rewrite Hpool. Qed.

Lemma dashboard_no_repeat (len : nat) (up lo num sym ex : bool) (r : Rng) :
  let pool := PasswordGenerators.characters up lo num sym ex in
  let g := Dashboard.mkRandom len up lo num sym ex true in
  pool ≠ [] ->
  (len ≤ length pool ->
   ∃ pw, Dashboard.generate g r = (Ok pw, advance r len)
         ∧ length pw = len ∧ NoDup pw ∧ Forall (fun c => c ∈ pool) pw)
  ∧ (length pool < len ->
     Dashboard.generate g r = (Raise InsufficientPoolError, r)).
Proof.
  intros pool g Hne. subst g. unfold Dashboard.generate. cbv zeta.
  rewrite chars_eq_characters. fold pool.
  rewrite bool_decide_eq_false_2 by done. simpl.
  split; intros Hlen.
  - destruct (Nat.ltb_spec (length pool) len) as [?|_]; [lia|].
    apply sample_spec; [done|apply characters_NoDup].
  - by destruct (Nat.ltb_spec (length pool) len) as [_|?]; [|lia].
Qed.

(** C3 (as stated) fails in [dasshboard.py] on an empty pool: with no
    class enabled, [noRepeat] set and length 1, the length exceeds the
    pool size 0, and [generate()] raises the no-character-types error,
    not the insufficient-pool one. *)
Lemma no_repeat_empty_pool_counterexample :
  Dashboard.no_repeated
    (Dashboard.mkRandom 1 false false false false false true) = true
  ∧ length (Dashboard.chars
              (Dashboard.mkRandom 1 false false false false false true)) < 1
  ∧ run (Dashboard.generate
           (Dashboard.mkRandom 1 false false false false false true))
        (fun _ => 0) = Raise ConfigError
  ∧ run (Dashboard.generate
           (Dashboard.mkRandom 1 false false false false false true))
        (fun _ => 0) ≠ Raise InsufficientPoolError.
Proof. split_and!; [reflexivity|simpl; lia|reflexivity|discriminate]. Qed.

(** C3 (amended): with [noRepeat] set, in [password_generators.py] for
    every configuration, and in [dasshboard.py] for every configuration
    whose pool is not empty: if the length is at most the pool size,
    [generate()] returns a string of exactly that length, without a
    repeated character, each character from the pool; if the length
    exceeds the pool size, it fails with the insufficient-pool error. *)
Theorem no_repeat_contract (len : nat) (up lo num sym ex : bool)
    (oracle : nat -> nat) :
  let pool := PasswordGenerators.characters up lo num sym ex in
  let lib := run (PasswordGenerators.generate
                    (PasswordGenerators.init len up lo num sym ex true)) oracle in
  let dash := run (Dashboard.generate
                     (Dashboard.mkRandom len up lo num sym ex true)) oracle in
  (len ≤ length pool ->
   ∃ pw, lib = Ok pw ∧ length pw = len ∧ NoDup pw
         ∧ Forall (fun c => c ∈ pool) pw)
  ∧ (length pool < len -> lib = Raise InsufficientPoolError)
  ∧ (pool ≠ [] -> len ≤ length pool ->
     ∃ pw, dash = Ok pw ∧ length pw = len ∧ NoDup pw
           ∧ Forall (fun c => c ∈ pool) pw)
  ∧ (pool ≠ [] -> length pool < len -> dash = Raise InsufficientPoolError).
Proof.
  intros pool lib dash. subst lib dash. unfold run.
  destruct (library_no_repeat len up lo num sym ex (mkRng oracle 0))
    as [Hlib_ok Hlib_err].
  split_and!.
  - intros Hlen. destruct (Hlib_ok Hlen) as (pw & -> & ?). by exists pw.
  - intros Hlen. by rewrite (Hlib_err Hlen).
  - intros Hne Hlen.
    destruct (dashboard_no_repeat len up lo num sym ex (mkRng oracle 0) Hne)
      as [Hok _].
    destruct (Hok Hlen) as (pw & -> & ?). by exists pw.
  - intros Hne Hlen.
    destruct (dashboard_no_repeat len up lo num sym ex (mkRng oracle 0) Hne)
      as [_ Herr].
    by rewrite (Herr Hlen).
Qed.

(** The contract at the digit pool: three distinct digits for length 3,
    the insufficient-pool error for length 11, in both modules. *)
Lemma no_repeat_contract_witness :
  (3 ≤ length digits ∧ digits ≠ []
   ∧ (∃ pw, run (PasswordGenerators.generate
                   (PasswordGenerators.init 3 false false true false false true))
                (fun i => i) = Ok pw
            ∧ length pw = 3 ∧ NoDup pw ∧ Forall (fun c => c ∈ digits) pw)
   ∧ (∃ pw, run (Dashboard.generate
                   (Dashboard.mkRandom 3 false false true false false true))
                (fun i => i) = Ok pw
            ∧ length pw = 3 ∧ NoDup pw ∧ Forall (fun c => c ∈ digits) pw))
  ∧ (length digits < 11
     ∧ run (PasswordGenerators.generate
              (PasswordGenerators.init 11 false false true false false true))
           (fun i => i) = Raise InsufficientPoolError
     ∧ run (Dashboard.generate
              (Dashboard.mkRandom 11 false false true false false true))
           (fun i => i) = Raise InsufficientPoolError).
Proof.
  assert (H3 : 3 ≤ length digits) by (simpl; lia).
  assert (H11 : length digits < 11) by (simpl; lia).
  assert (Hne : digits ≠ []) by discriminate.
  split.
  - split; [exact H3|]. split; [exact Hne|].
    destruct (no_repeat_contract 3 false false true false false (fun i => i))
      as (Hlib & _ & Hdash & _).
    split; [exact (Hlib H3)|exact (Hdash Hne H3)].
  - split; [exact H11|].
    destruct (no_repeat_contract 11 false false true false false (fun i => i))
      as (_ & Hlib & _ & Hdash).
    split; [exact (Hlib H11)|exact (Hdash Hne H11)].
Defined.

(** ** Empty pools *)

(** In [dasshboard.py] an empty pool always fails with the
    no-character-types error, whatever the other settings. *)
Lemma dashboard_empty_pool_config_error
    (len : nat) (ex nr : bool) (oracle : nat -> nat) :
  run (Dashboard.generate (Dashboard.mkRandom len false false false false ex nr))
      oracle = Raise ConfigError.
Proof.
  unfold run. rewrite dashboard_empty_pool; [done|].
  rewrite chars_eq_characters. by apply characters_empty_iff.
Qed.

(** C4 (as the code has it): [password_generators.py] has no check for
    an empty pool.  With no class enabled its [generate()] raises
    [IndexError] (from [random.choice]) for every positive length,
    returns the empty string for length 0, and with [noRepeat] set fails
    with the insufficient-pool error; it never fails with the
    no-character-types error that [dasshboard.py] raises there. *)
Theorem library_empty_pool_no_config_error
    (n : nat) (ex : bool) (oracle : nat -> nat) :
  PasswordGenerators.characters false false false false ex = []
  ∧ run (PasswordGenerators.generate
           (PasswordGenerators.init (S n) false false false false ex false))
        oracle = Raise IndexError
  ∧ run (PasswordGenerators.generate
           (PasswordGenerators.init 0 false false false false ex false))
        oracle = Ok []
  ∧ run (PasswordGenerators.generate
           (PasswordGenerators.init 0 false false false false ex true))
        oracle = Ok []
  ∧ run (PasswordGenerators.generate
           (PasswordGenerators.init (S n) false false false false ex true))
        oracle = Raise InsufficientPoolError
  ∧ run (Dashboard.generate
           (Dashboard.mkRandom (S n) false false false false ex false))
        oracle = Raise ConfigError.
Proof.
  split_and!; by destruct ex.
Qed.

(** ** Passphrases *)

Lemma sample_elem_of {A} (population : list A) (k : nat) (r : Rng) :
  k ≤ length population ->
  ∃ xs, sample population k r = (Ok xs, advance r k)
        ∧ length xs = k ∧ Forall (fun x => x ∈ population) xs.
Proof.
  intros Hk. unfold sample.
  destruct (Nat.ltb_spec (length population) k) as [?|_]; [lia|].
  destruct (sample_loop_spec k population r Hk) as (xs & rest & Hrun & Hlen & Hperm).
  exists xs. split_and!; try done.
  apply Forall_forall. intros x Hx. rewrite <- Hperm. apply elem_of_app. by left.
Qed.

(** The filter of [dasshboard.py] is the one of the specification. *)
Lemma filtered_vocab_spec (self : Dashboard.MemorablePasswordGenerator) :
  Dashboard.filtered_vocab self = spec_filtered (Dashboard.vocabulary self).
Proof.
  unfold Dashboard.filtered_vocab, spec_filtered.
  assert (Heq : filter (fun w : str => 3 < length w < 8) (Dashboard.vocabulary self)
                = filter (fun w : str => 4 ≤ length w ≤ 7) (Dashboard.vocabulary self)).
  { apply list_filter_iff. intros w. lia. }
  rewrite Heq. by case_match.
Qed.

Lemma spec_filtered_elem_of (vocab : list str) (w : str) :
  w ∈ spec_filtered vocab ->
  w ∈ vocab ∧ (4 ≤ length w ≤ 7 ∨ ∀ v, v ∈ vocab -> ¬ 4 ≤ length v ≤ 7).
Proof.
  unfold spec_filtered.
  destruct (filter _ vocab) as [|v fv] eqn:Hf.
  - intros Hw. split; [done|]. right. intros v Hv Hlen.
    by apply (filter_nil_not_elem_of _ _ v Hf).
  - rewrite <- Hf. intros Hw. apply list_elem_of_filter in Hw. tauto.
Qed.

(** [generate] of [dasshboard.py] samples its words from the filtered
    vocabulary only, and fails when asked for more words than it has. *)
Lemma dashboard_memorable_outcome
    (self : Dashboard.MemorablePasswordGenerator) (r : Rng) :
  let fv := spec_filtered (Dashboard.vocabulary self) in
  (Dashboard.no_of_words self ≤ length fv ->
   ∃ ws suffix,
     fst (Dashboard.generate_memorable self r)
     = Ok (join (Dashboard.separator self)
             ((if Dashboard.capitalization self then capitalize else lower)
                <$> ws) ++ suffix)
     ∧ length ws = Dashboard.no_of_words self
     ∧ Forall (fun w => w ∈ fv) ws
     ∧ length suffix = Dashboard.suffix_length self
     ∧ Forall (fun c => c ∈ digits) suffix)
  ∧ (length fv < Dashboard.no_of_words self ->
     Dashboard.generate_memorable self r = (Raise InsufficientVocabularyError, r)).
Proof.
  intros fv. unfold Dashboard.generate_memorable.
  rewrite filtered_vocab_spec. fold fv. split; intros Hn.
  - destruct (sample_elem_of fv _ r Hn) as (ws & Hrun & Hlen & Hin).
    unfold bind at 1. rewrite Hrun.
    destruct (Nat.ltb_spec 0 (Dashboard.suffix_length self)) as [Hpos|Hzero].
    + unfold bind, choices.
      rewrite (replicateM_choice_eq "0"%char) by apply digits_nonempty.
      eexists ws, _. split_and!; [|done|done|apply length_picks|
                                  apply picks_elem_of, digits_nonempty].
      simpl. by destruct (Dashboard.capitalization self).
    + exists ws, []. split_and!; [|done|done|simpl; lia|constructor].
      simpl. rewrite app_nil_r. by destruct (Dashboard.capitalization self).
  - unfold bind. by rewrite sample_too_large.
Qed.

(** [generate] of [password_generators.py]: words picked with
    replacement from the whole vocabulary, then the digits. *)
Lemma library_memorable_eq
    (self : PasswordGenerators.MemorablePasswordGenerator) (r : Rng) :
  PasswordGenerators.mpg_vocabulary self ≠ [] ->
  let ws := picks [] (PasswordGenerators.mpg_vocabulary self) (draws r)
              (cursor r) (PasswordGenerators.mpg_no_of_words self) in
  let suffix := picks "0"%char digits (draws r)
                  (cursor r + PasswordGenerators.mpg_no_of_words self)
                  (PasswordGenerators.mpg_suffix_length self) in
  fst (PasswordGenerators.generate_memorable self r)
  = Ok (join (PasswordGenerators.mpg_separator self)
          (if PasswordGenerators.mpg_capitalization self
           then capitalize <$> ws else ws) ++ suffix).
Proof.
  intros Hne ws suffix. unfold PasswordGenerators.generate_memorable.
  unfold bind at 1. rewrite (replicateM_choice_eq []) by done. fold ws.
  destruct (Nat.ltb_spec 0 (PasswordGenerators.mpg_suffix_length self))
    as [Hpos|Hzero].
  - unfold bind.
    rewrite (replicateM_choice_eq "0"%char) by apply digits_nonempty.
    reflexivity.
  - subst suffix.
    replace (PasswordGenerators.mpg_suffix_length self) with 0 by lia.
    simpl. by rewrite app_nil_r.
Qed.

Example example_words_capitalized :
  capitalize <$> example_vocabulary
  = [str_of "Apple"; str_of "Banana"; str_of "Kiwi"].
Proof. reflexivity. Qed.

Example example_filtered :
  Dashboard.filtered_vocab dashboard_example = example_vocabulary.
Proof. reflexivity. Qed.

(** C5 (as stated) fails in [dasshboard.py]: the example asks for four
    words out of a filtered vocabulary of three, and the generator, which
    samples without replacement, raises instead of returning a string. *)
Lemma dashboard_example_counterexample :
  run (Dashboard.generate_memorable dashboard_example) (fun _ => 0)
  = Raise InsufficientVocabularyError
  ∧ ¬ ∃ pw, run (Dashboard.generate_memorable dashboard_example) (fun _ => 0)
            = Ok pw ∧ matches_pattern example_vocabulary pw.
Proof.
  split; [reflexivity|]. intros (pw & Hrun & _). discriminate Hrun.
Qed.

(** C5 (amended): for wordCount 4, separator "-", capitalize true,
    vocabulary apple, banana, kiwi and suffix length 2, every call to
    [generate()] of [password_generators.py] (which picks words with
    replacement) returns a string [Word-Word-Word-Word] followed by
    exactly two decimal digits, each word a capitalized word of the
    filtered vocabulary; every call to [generate()] of [dasshboard.py]
    (which picks words without replacement) fails, four words being more
    than the three of the filtered vocabulary. *)
Theorem memorable_example_pattern (oracle : nat -> nat) :
  (∃ pw, run (PasswordGenerators.generate_memorable library_example) oracle
         = Ok pw
         ∧ matches_pattern (spec_filtered example_vocabulary) pw)
  ∧ run (Dashboard.generate_memorable dashboard_example) oracle
    = Raise InsufficientVocabularyError.
Proof.
  split.
  - unfold run. rewrite library_memorable_eq by done.
    eexists. split; [reflexivity|].
    change (spec_filtered example_vocabulary) with example_vocabulary.
    cbn [library_example PasswordGenerators.mpg_vocabulary
         PasswordGenerators.mpg_no_of_words PasswordGenerators.mpg_separator
         PasswordGenerators.mpg_capitalization PasswordGenerators.mpg_suffix_length
         draws cursor picks fmap list_fmap join].
    pose proof (picks_elem_of [] example_vocabulary oracle 0 4) as Hws.
    pose proof (picks_elem_of "0"%char digits oracle (0 + 4) 2) as Hds.
    cbn [picks] in Hws, Hds.
    specialize (Hws ltac:(done)). specialize (Hds digits_nonempty).
    repeat match goal with
           | H : Forall _ (_ :: _) |- _ => apply Forall_cons in H as [? H]
           end.
    do 6 eexists. split_and!; [..|rewrite <- !app_assoc; reflexivity]; done.
  - unfold run.
    destruct (dashboard_memorable_outcome dashboard_example (mkRng oracle 0))
      as [_ Herr].
    rewrite Herr; [done|]. simpl. lia.
Qed.

(** C6 (as the code has it): [generate()] of [password_generators.py]
    samples the whole vocabulary.  From the vocabulary a, apple it
    returns the one-letter word a on the draw 0, although the filtered
    vocabulary is not empty and holds apple only. *)
Theorem library_memorable_unfiltered :
  run (PasswordGenerators.generate_memorable
         (PasswordGenerators.mkMemorable 1 (str_of "-") false 0
            [str_of "a"; str_of "apple"]))
      (fun _ => 0) = Ok (str_of "a")
  ∧ spec_filtered [str_of "a"; str_of "apple"] = [str_of "apple"]
  ∧ Dashboard.filtered_vocab
      (Dashboard.init_memorable 1 (str_of "-") false
         [str_of "a"; str_of "apple"] 0) = [str_of "apple"]
  ∧ run (Dashboard.generate_memorable
           (Dashboard.init_memorable 1 (str_of "-") false
              [str_of "a"; str_of "apple"] 0))
        (fun _ => 0) = Ok (str_of "apple").
Proof. split_and!; reflexivity. Qed.

(** * Further properties of the generators *)

(** ** Pools *)

(** X1: the size of the pool, in both modules, is the sum of the sizes
    of the enabled classes (26, 26, 10, 32), less, under the exclusion,
    the similar characters of the enabled classes (I and O, l, 0 and 1). *)
Theorem pool_size (len : nat) (up lo num sym ex nr : bool) :
  let n := 26 * Nat.b2n up + 26 * Nat.b2n lo + 10 * Nat.b2n num
           + 32 * Nat.b2n sym
           - (if ex then 2 * Nat.b2n up + Nat.b2n lo + 2 * Nat.b2n num else 0) in
  length (PasswordGenerators.characters up lo num sym ex) = n
  ∧ length (Dashboard.chars (Dashboard.mkRandom len up lo num sym ex nr)) = n.
Proof.
  intros n. rewrite chars_eq_characters. subst n.
  destruct up, lo, num, sym, ex; split; reflexivity.
Qed.

(** X2: in both modules the pool is empty exactly when no class is
    enabled; the exclusion alone never empties it. *)
Theorem pool_empty_iff_no_class (len : nat) (up lo num sym ex nr : bool) :
  (PasswordGenerators.characters up lo num sym ex = []
   ↔ up || lo || num || sym = false)
  ∧ (Dashboard.chars (Dashboard.mkRandom len up lo num sym ex nr) = []
     ↔ up || lo || num || sym = false).
Proof.
  rewrite chars_eq_characters, characters_empty_iff.
  destruct up, lo, num, sym; simpl; intuition congruence.
Qed.

Lemma characters_elem_of_plain (up lo num sym : bool) (c : ascii) :
  c ∈ PasswordGenerators.characters up lo num sym false
  ↔ (up = true ∧ c ∈ ascii_uppercase) ∨ (lo = true ∧ c ∈ ascii_lowercase)
    ∨ (num = true ∧ c ∈ digits) ∨ (sym = true ∧ c ∈ punctuation).
Proof.
  unfold PasswordGenerators.characters.
  destruct up, lo, num, sym; rewrite ?app_nil_l, ?elem_of_app, ?elem_of_nil;
    intuition congruence.
Qed.

(** X3: in both modules the pool holds no character twice, and a
    character is in it exactly when it belongs to an enabled class and,
    under the exclusion, is none of I, l, 1, O, 0. *)
Theorem pool_contents (len : nat) (up lo num sym ex nr : bool) :
  let pool := Dashboard.chars (Dashboard.mkRandom len up lo num sym ex nr) in
  pool = PasswordGenerators.characters up lo num sym ex
  ∧ NoDup pool
  ∧ ∀ c, c ∈ pool
         ↔ ((up = true ∧ c ∈ ascii_uppercase) ∨ (lo = true ∧ c ∈ ascii_lowercase)
            ∨ (num = true ∧ c ∈ digits) ∨ (sym = true ∧ c ∈ punctuation))
           ∧ (ex = true -> c ∉ str_of "Il1O0").
Proof.
  intros pool. subst pool. rewrite chars_eq_characters.
  split; [reflexivity|]. split; [apply characters_NoDup|]. intros c.
  destruct ex.
  - rewrite characters_exclusion_filter, list_elem_of_filter.
    rewrite characters_elem_of_plain. tauto.
  - rewrite characters_elem_of_plain. intuition congruence.
Qed.

(** ** Random passwords, continued *)

Lemma chars_NoDup (g : Dashboard.RandomPasswordGenerator) :
  NoDup (Dashboard.chars g).
Proof. destruct g. rewrite chars_eq_characters. apply characters_NoDup. Qed.

(** X4: without [noRepeat] and with at least one character in the pool,
    [generate()] of either module returns, on the same draws, the same
    string of exactly [length] characters of the pool, after [length]
    draws. *)
Theorem random_with_repetition (len : nat) (up lo num sym ex : bool)
    (oracle : nat -> nat) :
  let pool := PasswordGenerators.characters up lo num sym ex in
  let lib := PasswordGenerators.generate
               (PasswordGenerators.init len up lo num sym ex false) in
  let dash := Dashboard.generate
                (Dashboard.mkRandom len up lo num sym ex false) in
  pool ≠ [] ->
  ∃ pw, run lib oracle = Ok pw ∧ run dash oracle = Ok pw
        ∧ length pw = len ∧ Forall (fun c => c ∈ pool) pw
        ∧ consumed lib oracle = len ∧ consumed dash oracle = len.
Proof.
  intros pool lib dash Hne. subst lib dash.
  unfold run, consumed, Dashboard.generate, PasswordGenerators.generate.
  cbv zeta. rewrite chars_eq_characters. fold pool.
  rewrite bool_decide_eq_false_2 by done. simpl. fold pool.
  rewrite (replicateM_choice_eq "0"%char) by done.
  eexists. split_and!; try reflexivity.
  - apply length_picks.
  - by apply picks_elem_of.
Qed.

Lemma random_with_repetition_witness :
  PasswordGenerators.characters true true false false false ≠ []
  ∧ ∃ pw, run (PasswordGenerators.generate
                 (PasswordGenerators.init 8 true true false false false false))
              (fun i => 5 * i) = Ok pw
          ∧ run (Dashboard.generate
                   (Dashboard.mkRandom 8 true true false false false false))
                (fun i => 5 * i) = Ok pw
          ∧ length pw = 8
          ∧ Forall (fun c => c ∈ PasswordGenerators.characters
                                   true true false false false) pw
          ∧ consumed (PasswordGenerators.generate
                        (PasswordGenerators.init 8 true true false false false false))
                     (fun i => 5 * i) = 8
          ∧ consumed (Dashboard.generate
                        (Dashboard.mkRandom 8 true true false false false false))
                     (fun i => 5 * i) = 8.
Proof.
  assert (Hne : PasswordGenerators.characters true true false false false ≠ [])
    by discriminate.
  split; [exact Hne|].
  exact (random_with_repetition 8 true true false false false (fun i => 5 * i) Hne).
Defined.

(** X5: every call of [generate()] of [dasshboard.py] ends in one of
    three ways: the no-character-types error, exactly when the pool is
    empty; the not-enough-unique-characters error, exactly when the pool
    is not empty, [no_repeated] is set and the pool is shorter than the
    length; otherwise a string of [length] pool characters, without a
    repeated character when [no_repeated] is set.  No other error
    occurs. *)
Theorem dashboard_generate_outcome
    (g : Dashboard.RandomPasswordGenerator) (oracle : nat -> nat) :
  match run (Dashboard.generate g) oracle with
  | Ok pw =>
      Dashboard.chars g ≠ []
      ∧ (Dashboard.no_repeated g = true
         -> Dashboard.length_ g ≤ length (Dashboard.chars g) ∧ NoDup pw)
      ∧ length pw = Dashboard.length_ g
      ∧ Forall (fun c => c ∈ Dashboard.chars g) pw
  | Raise e =>
      (e = ConfigError ∧ Dashboard.chars g = [])
      ∨ (e = InsufficientPoolError ∧ Dashboard.chars g ≠ []
         ∧ Dashboard.no_repeated g = true
         ∧ length (Dashboard.chars g) < Dashboard.length_ g)
  end.
Proof.
  unfold run, Dashboard.generate. cbv zeta.
  case_bool_decide as Hpool; [by left|].
  destruct (Dashboard.no_repeated g) eqn:Hnr; simpl.
  - destruct (Nat.ltb_spec (length (Dashboard.chars g)) (Dashboard.length_ g))
      as [Hlt|Hle]; simpl; [by right|].
    destruct (sample_spec (Dashboard.chars g) (Dashboard.length_ g)
                (mkRng oracle 0) Hle (chars_NoDup g))
      as (pw & -> & Hlen & Hnd & Hin).
    simpl. by split_and!.
  - rewrite (replicateM_choice_eq "0"%char) by done. simpl.
    split_and!; [done|done|apply length_picks|by apply picks_elem_of].
Qed.



(** ** The rejection tests of the PIN generator *)

(** X7: [is_repeating] holds exactly of the strings made of one
    character written one or more times; the empty string is not
    repeating. *)
Theorem is_repeating_replicate (pin : str) :
  PasswordGenerators.is_repeating pin = true
  ↔ ∃ c n, pin = replicate (S n) c.
Proof.
  rewrite is_repeating_iff. unfold single_repeated_digit. split.
  - intros (c & Hne & Hall). exists c.
    destruct pin as [|a pin]; [done|]. exists (length pin).
    change (replicate (S (length pin)) c) with (replicate (length (a :: pin)) c).
    symmetry. apply replicate_as_Forall. split; [done|].
    eapply Forall_impl; [exact Hall|]. by intros x ->.
  - intros (c & n & ->). exists c. split; [done|].
    apply Forall_forall. intros x Hx. by apply elem_of_replicate in Hx as [-> _].
Qed.

Lemma monotonic_by_progression (k : Z) (pin : str) (a : ascii) :
  pin !! 0 = Some a ->
  monotonic_by k pin
  ↔ ∀ i c, pin !! i = Some c ->
           (int_of_digit c = int_of_digit a + k * Z.of_nat i)%Z.
Proof.
  intros Ha. unfold monotonic_by. split.
  - intros Hmono i. induction i as [|i IH]; intros c Hc.
    + rewrite Ha in Hc. injection Hc as <-. lia.
    + destruct (lookup_lt_is_Some_2 pin i) as [b Hb].
      { apply lookup_lt_Some in Hc. lia. }
      specialize (IH b Hb). specialize (Hmono i b c Hb Hc). lia.
  - intros Hprog i x y Hx Hy.
    apply Hprog in Hx. apply Hprog in Hy. lia.
Qed.


Lemma int_of_digit_range (c : ascii) :
  c ∈ digits -> (0 <= int_of_digit c <= 9)%Z.
Proof.
  unfold digits. simpl. rewrite !elem_of_cons, elem_of_nil.
  intros H. repeat (destruct H as [->|H]; [by vm_compute|]). done.
Qed.

(** X9: a string of more than ten decimal digits is never sequential:
    a run by steps of one has no room between 0 and 9. *)
Theorem long_pin_not_sequential (pin : str) :
  Forall (fun c => c ∈ digits) pin -> 10 < length pin ->
  PasswordGenerators.is_sequential pin = false.
Proof.
  intros Hdig Hlen. apply not_true_iff_false. rewrite is_sequential_iff.
  intros [_ Hmono].
  destruct pin as [|a pin]; [simpl in Hlen; lia|].
  rewrite !(monotonic_by_progression _ (a :: pin) a) in Hmono by done.
  destruct (lookup_lt_is_Some_2 (a :: pin) 10 Hlen) as [c Hc].
  rewrite Forall_forall in Hdig.
  pose proof (int_of_digit_range a (Hdig a ltac:(left))).
  pose proof (int_of_digit_range c (Hdig c (list_elem_of_lookup_2 _ _ _ Hc))).
  destruct Hmono as [Hp|Hp]; specialize (Hp 10 c Hc); lia.
Qed.

Lemma long_pin_not_sequential_witness :
  Forall (fun c => c ∈ digits) (str_of "01234567890")
  ∧ 10 < length (str_of "01234567890")
  ∧ PasswordGenerators.is_sequential (str_of "01234567890") = false.
Proof.
  assert (Hdig : Forall (fun c => c ∈ digits) (str_of "01234567890")).
  { apply Forall_forall. intros c Hc. unfold digits.
    simpl in *. rewrite !elem_of_cons in *. tauto. }
  assert (Hlen : 10 < length (str_of "01234567890")) by (simpl; lia).
  split; [exact Hdig|]. split; [exact Hlen|].
  exact (long_pin_not_sequential (str_of "01234567890") Hdig Hlen).
Defined.


Lemma library_pin_safe_witness :
  run (PasswordGenerators.generate_pin 4) (fun i => S i) = Ok (str_of "9012")
  ∧ (str_of "9012" ∉ [str_of "1234"; str_of "0000"; str_of "1111"; str_of "2580"])
  ∧ ¬ single_repeated_digit (str_of "9012") ∧ ¬ sequential_run (str_of "9012").
Proof.
  assert (Hrun : run (PasswordGenerators.generate_pin 4) (fun i => S i)
                 = Ok (str_of "9012")) by (vm_compute; reflexivity).
  split; [exact Hrun|].
  exact (library_pin_safe 4 (fun i => S i) (str_of "9012") Hrun).
Defined.

Lemma spread_start_accepted (a b : ascii) (rest : str) :
  (2 <= Z.abs (int_of_digit b - int_of_digit a))%Z ->
  a :: b :: rest ≠ str_of "2580" ->
  rejected (a :: b :: rest) = false.
Proof.
  intros Hgap Hnot. apply not_true_iff_false. intros Hrej.
  assert (Hcases : a :: b :: rest = str_of "2580"
                   ∨ single_repeated_digit (a :: b :: rest)
                   ∨ sequential_run (a :: b :: rest)).
  { unfold rejected in Hrej.
    rewrite !orb_true_iff, bool_decide_eq_true in Hrej.
    rewrite is_repeating_iff, is_sequential_iff, blocked_elements in Hrej.
    rewrite !elem_of_cons, elem_of_nil in Hrej.
    destruct Hrej as [[[Heq|[Heq|[Heq|[Heq|[]]]]]|Hrep]|Hseq]; try tauto.
    - injection Heq as -> -> _. vm_compute in Hgap. by destruct Hgap.
    - injection Heq as -> -> _. vm_compute in Hgap. by destruct Hgap.
    - injection Heq as -> -> _. vm_compute in Hgap. by destruct Hgap. }
  destruct Hcases as [Heq|[(c & _ & Hall)|[_ [Hmono|Hmono]]]].
  - done.
  - apply Forall_cons in Hall as [-> Hall]. apply Forall_cons in Hall as [-> _]. lia.
  - specialize (Hmono 0 a b eq_refl eq_refl). lia.
  - specialize (Hmono 0 a b eq_refl eq_refl). lia.
Qed.

(** X12: when the first candidate starts with two digits at least two
    apart and is not 2580, [generate()] of [password_generators.py]
    returns it at once, after [length] draws: for every length from two
    on the generator can succeed. *)
Theorem pin_spread_start_returned (len : nat) (oracle : nat -> nat)
    (a b : ascii) (rest : str) :
  candidate (mkRng oracle 0) len 0 = a :: b :: rest ->
  (2 <= Z.abs (int_of_digit b - int_of_digit a))%Z ->
  a :: b :: rest ≠ str_of "2580" ->
  run (PasswordGenerators.generate_pin len) oracle = Ok (a :: b :: rest)
  ∧ consumed (PasswordGenerators.generate_pin len) oracle = len.
Proof.
  intros Hcand Hgap Hnot.
  unfold run, consumed, PasswordGenerators.generate_pin,
    PasswordGenerators.max_attempts.
  rewrite attempt_S, Hcand, spread_start_accepted by done. done.
Qed.

Lemma pin_spread_start_returned_witness :
  candidate (mkRng (fun i => 3 * i) 0) 6 0 = str_of "036925"
  ∧ (2 <= Z.abs (int_of_digit "3" - int_of_digit "0"))%Z
  ∧ str_of "036925" ≠ str_of "2580"
  ∧ run (PasswordGenerators.generate_pin 6) (fun i => 3 * i)
    = Ok (str_of "036925")
  ∧ consumed (PasswordGenerators.generate_pin 6) (fun i => 3 * i) = 6.
Proof.
  assert (Hcand : candidate (mkRng (fun i => 3 * i) 0) 6 0 = str_of "036925")
    by reflexivity.
  assert (Hgap : (2 <= Z.abs (int_of_digit "3" - int_of_digit "0"))%Z)
    by (vm_compute; discriminate).
  assert (Hnot : str_of "036925" ≠ str_of "2580") by discriminate.
  split; [exact Hcand|]. split; [exact Hgap|]. split; [exact Hnot|].
  exact (pin_spread_start_returned 6 (fun i => 3 * i) "0" "3" (str_of "6925")
           Hcand Hgap Hnot).
Defined.

(** ** The strength scorer, continued *)

Lemma py_round_mono (x y : Q) :
  (x <= y)%Q -> (Dashboard.py_round x <= Dashboard.py_round y)%Z.
Proof.
  intros Hxy. pose proof (Qfloor_resp_le x y Hxy) as Hfl.
  unfold Dashboard.py_round.
  destruct (Z.eq_dec (Qfloor x) (Qfloor y)) as [Heq|Hne].
  - rewrite <- Heq.
    destruct (Qcompare_spec (x - inject_Z (Qfloor x)) (1 # 2)) as [Hx|Hx|Hx];
      destruct (Qcompare_spec (y - inject_Z (Qfloor x)) (1 # 2)) as [Hy|Hy|Hy];
      try destruct (Z.even (Qfloor x)); try lia; exfalso; lra.
  - assert (Hlt : (Qfloor x + 1 <= Qfloor y)%Z) by lia. clear Hne Hfl.
    destruct (x - inject_Z (Qfloor x) ?= 1 # 2)%Q;
      destruct (y - inject_Z (Qfloor y) ?= 1 # 2)%Q;
      try destruct (Z.even (Qfloor x)); try destruct (Z.even (Qfloor y)); lia.
Qed.

Lemma length_score_mono (n m : Z) :
  (n <= m)%Z ->
  ((if (4 <? n)%Z then inject_Z (Z.min (n - 4) 16) / 16 * 40 else 0)
   <= (if (4 <? m)%Z then inject_Z (Z.min (m - 4) 16) / 16 * 40 else 0))%Q.
Proof.
  intros Hnm.
  destruct (Z.ltb_spec 4 n), (Z.ltb_spec 4 m); try lia.
  - assert (H1 : (inject_Z (Z.min (n - 4) 16) <= inject_Z (Z.min (m - 4) 16))%Q)
      by (rewrite <- Zle_Qle; lia).
    revert H1. generalize (inject_Z (Z.min (n - 4) 16)).
    generalize (inject_Z (Z.min (m - 4) 16)). intros a b Hab.
    unfold Qdiv. apply Qmult_le_compat_r; [|done].
    by apply Qmult_le_compat_r.
  - apply scaled_nonneg. lia.
  - apply Qle_refl.
Qed.

Lemma score_of_mono (n m : Z) (u l d y u' l' d' y' : bool) :
  (n <= m)%Z ->
  (score_of n u l d y
   <= score_of m (u || u') (l || l') (d || d') (y || y'))%Z.
Proof.
  intros Hnm. unfold score_of. apply Z.min_le_compat_l, py_round_mono.
  pose proof (length_score_mono n m Hnm) as Hls.
  set (a := (if (4 <? n)%Z then _ else _)) in *.
  set (b := (if (4 <? m)%Z then _ else _)) in *.
  clearbody a b.
  destruct u, l, d, y, u', l', d', y'; cbn [orb andb Z.b2z Z.add];
    unfold Qle in *; simpl in *; lia.
Qed.

Lemma score_of_range (n : Z) (u l d y : bool) :
  (0 <= score_of n u l d y <= 100)%Z.
Proof.
  unfold score_of. split; [|apply Z.le_min_l].
  apply Z.min_glb; [lia|]. apply py_round_nonneg.
  repeat apply Qplus_nonneg.
  - destruct (Z.ltb_spec 4 n); [apply scaled_nonneg; lia|done].
  - apply scaled_nonneg. by destruct u, l, d, y.
  - apply inject_Z_nonneg. by destruct d, y.
Qed.

Lemma score_of_100 (n : Z) (u l d y : bool) :
  score_of n u l d y = 100%Z
  ↔ (20 <= n)%Z ∧ u = true ∧ l = true ∧ d = true ∧ y = true.
Proof.
  destruct u, l, d, y; score_cases n;
    (split; [intros ?; try discriminate; split_and!; (lia || done)
            |intros (? & ? & ? & ? & ?); try congruence; lia]).
Qed.

Lemma score_of_digits (n : Z) :
  (score_of n false false true false <= 60)%Z
  ∧ ((20 <= n)%Z -> score_of n false false true false = 60%Z).
Proof. score_cases n; (split; [lia|intros ?; lia]). Qed.

Lemma compute_strength_score {C} (isupper islower isdigit isalnum : C -> bool)
    (pw : list C) :
  pw ≠ [] ->
  Dashboard.compute_strength isupper islower isdigit isalnum pw
  = (score_of (Z.of_nat (length pw)) (existsb isupper pw) (existsb islower pw)
       (existsb isdigit pw) (existsb (fun c => negb (isalnum c)) pw),
     StrengthSpec.label
       (score_of (Z.of_nat (length pw)) (existsb isupper pw) (existsb islower pw)
          (existsb isdigit pw) (existsb (fun c => negb (isalnum c)) pw))).
Proof. intros Hne. by destruct pw. Qed.

(** X13: the score never decreases when characters are added at the
    end of a string, whatever the characters. *)
Theorem compute_strength_monotone {C} (isupper islower isdigit isalnum : C -> bool)
    (pw more : list C) :
  (fst (Dashboard.compute_strength isupper islower isdigit isalnum pw)
   <= fst (Dashboard.compute_strength isupper islower isdigit isalnum
             (pw ++ more)))%Z.
Proof.
  destruct pw as [|c pw].
  - destruct more as [|c more]; [simpl; lia|].
    change (fst (Dashboard.compute_strength isupper islower isdigit isalnum []))
      with 0%Z.
    rewrite app_nil_l, compute_strength_score by done.
    cbn [fst]. apply score_of_range.
  - rewrite !compute_strength_score by done. cbn [fst].
    rewrite !existsb_app. apply score_of_mono.
    rewrite length_app. lia.
Qed.

(** X14: the score is always between 0 and 100, and it is 100 exactly
    for the strings of at least 20 characters that satisfy all four
    class tests. *)
Theorem compute_strength_full_marks {C} (isupper islower isdigit isalnum : C -> bool)
    (pw : list C) :
  let score :=
    fst (Dashboard.compute_strength isupper islower isdigit isalnum pw) in
  (0 <= score <= 100)%Z
  ∧ (score = 100%Z
     ↔ 20 ≤ length pw
       ∧ existsb isupper pw = true ∧ existsb islower pw = true
       ∧ existsb isdigit pw = true
       ∧ existsb (fun c => negb (isalnum c)) pw = true).
Proof.
  intros score. subst score. destruct pw as [|c pw].
  - simpl. split; [lia|]. split; [discriminate|]. intros [? _]. lia.
  - rewrite compute_strength_score by done. cbn [fst].
    split; [apply score_of_range|]. rewrite score_of_100.
    split; intros (? & ?); (split; [lia|done]).
Qed.

Lemma digit_classes (c : ascii) :
  c ∈ digits ->
  is_ascii_upper c = false ∧ is_ascii_lower c = false
  ∧ is_ascii_digit c = true ∧ ascii_isalnum c = true.
Proof.
  unfold digits. simpl. rewrite !elem_of_cons, elem_of_nil.
  intros H. repeat (destruct H as [->|H]; [by vm_compute|]). done.
Qed.

Lemma digit_string_classes (pin : str) :
  Forall (fun c => c ∈ digits) pin -> pin ≠ [] ->
  existsb is_ascii_upper pin = false ∧ existsb is_ascii_lower pin = false
  ∧ existsb is_ascii_digit pin = true
  ∧ existsb (fun c => negb (ascii_isalnum c)) pin = false.
Proof.
  intros Hdig Hne. induction Hdig as [|c pin Hc Hdig IH]; [done|].
  destruct (digit_classes c Hc) as (Hu & Hl & Hd & Ha).
  cbn [existsb]. rewrite Hu, Hl, Hd, Ha. simpl.
  destruct pin as [|c' pin]; [done|].
  destruct IH as (-> & -> & _ & ->); done.
Qed.

(** X15: the PIN that [generate()] of [dasshboard.py] returns, scored by
    [compute_strength] as the page does, never gets more than 60 and is
    never rated Very Strong; from length 20 on it gets exactly 60,
    Strong. *)
Theorem pin_strength (len : nat) (oracle : nat -> nat) :
  ∃ pin, run (Dashboard.generate_pin len) oracle = Ok pin
         ∧ (fst (ascii_compute_strength pin) <= 60)%Z
         ∧ snd (ascii_compute_strength pin) ≠ "Very Strong"%string
         ∧ (20 ≤ len -> ascii_compute_strength pin = (60%Z, "Strong"%string)).
Proof.
  unfold run, Dashboard.generate_pin, choices.
  rewrite (replicateM_choice_eq "0"%char) by apply digits_nonempty.
  eexists. split; [reflexivity|].
  set (pin := picks _ _ _ _ _).
  assert (Hlen : length pin = len) by apply length_picks.
  assert (Hdig : Forall (fun c => c ∈ digits) pin)
    by apply picks_elem_of, digits_nonempty.
  clearbody pin. unfold ascii_compute_strength.
  destruct pin as [|c pin].
  - simpl in *. subst len. split; [lia|]. split; [discriminate|]. lia.
  - rewrite compute_strength_score by done.
    destruct (digit_string_classes (c :: pin) Hdig) as (-> & -> & -> & ->);
      [done|].
    destruct (score_of_digits (Z.of_nat (length (c :: pin)))) as [Hle Hfull].
    cbn [fst snd]. split; [exact Hle|]. split.
    + unfold StrengthSpec.label.
      pose proof (score_of_range (Z.of_nat (length (c :: pin)))
                    false false true false).
      repeat case_match; try discriminate. lia.
    + intros H20. rewrite Hfull by lia. reflexivity.
Qed.

(** ** Passphrases, continued *)






(** X17: [generate()] of [dasshboard.py] fails, without reading the
    random source, exactly when it is asked for more words than the
    filtered vocabulary has. *)
Theorem dashboard_memorable_fails_iff
    (self : Dashboard.MemorablePasswordGenerator) (oracle : nat -> nat) :
  (run (Dashboard.generate_memorable self) oracle
   = Raise InsufficientVocabularyError
   ↔ length (Dashboard.filtered_vocab self) < Dashboard.no_of_words self)
  ∧ ((∃ pw, run (Dashboard.generate_memorable self) oracle = Ok pw)
     ↔ Dashboard.no_of_words self ≤ length (Dashboard.filtered_vocab self))
  ∧ (length (Dashboard.filtered_vocab self) < Dashboard.no_of_words self
     -> consumed (Dashboard.generate_memorable self) oracle = 0).
Proof.
  pose proof (dashboard_memorable_outcome self (mkRng oracle 0)) as [Hok Herr].
  rewrite <- filtered_vocab_spec in Hok, Herr. unfold run, consumed.
  destruct (Nat.le_gt_cases (Dashboard.no_of_words self)
              (length (Dashboard.filtered_vocab self))) as [Hle|Hgt].
  - destruct (Hok Hle) as (ws & suffix & Hrun & _). rewrite Hrun.
    split_and!; [split; [discriminate|lia]|split; [done|by eexists]|lia].
  - rewrite (Herr Hgt). simpl.
    split_and!; [done|split; [by intros [? ?]|lia]|done].
Qed.

(** X18: the words the sampler of [dasshboard.py] sees are entries of
    the vocabulary, in their order; there is at least one whenever the
    vocabulary is not empty; and either all of them have 4 to 7
    characters, or no word of the vocabulary has and they are the whole
    vocabulary. *)
Theorem filtered_vocab_properties (self : Dashboard.MemorablePasswordGenerator) :
  let fv := Dashboard.filtered_vocab self in
  fv `sublist_of` Dashboard.vocabulary self
  ∧ (Dashboard.vocabulary self ≠ [] -> fv ≠ [])
  ∧ ((fv ≠ [] ∧ ∀ w, w ∈ fv ↔ w ∈ Dashboard.vocabulary self ∧ 4 ≤ length w ≤ 7)
     ∨ (fv = Dashboard.vocabulary self
        ∧ ∀ w, w ∈ Dashboard.vocabulary self -> ¬ 4 ≤ length w ≤ 7)).
Proof.
  intros fv. subst fv. rewrite filtered_vocab_spec. unfold spec_filtered.
  destruct (filter _ (Dashboard.vocabulary self)) as [|v fv] eqn:Hf.
  - split_and!; [done|done|]. right. split; [done|].
    intros w Hw Hlen. by apply (filter_nil_not_elem_of _ _ w Hf).
  - rewrite <- Hf. split_and!.
    + apply sublist_filter.
    + intros _. by rewrite Hf.
    + left. split; [by rewrite Hf|]. intros w.
      rewrite list_elem_of_filter. tauto.
Qed.

(** X19: a generator of [dasshboard.py] constructed without a
    vocabulary (or with an empty one) uses apple, banana, cherry, so its
    [generate()] returns exactly when at most three words are asked for;
    with the constructor's default of four words it always fails. *)
Theorem default_vocabulary_limit (n : nat) (sep : str) (cap : bool) (suf : nat)
    (oracle : nat -> nat) :
  let g := Dashboard.init_memorable n sep cap [] suf in
  Dashboard.filtered_vocab g
  = [str_of "apple"; str_of "banana"; str_of "cherry"]
  ∧ ((∃ pw, run (Dashboard.generate_memorable g) oracle = Ok pw) ↔ n ≤ 3)
  ∧ run (Dashboard.generate_memorable (Dashboard.init_memorable 4 sep cap [] suf))
        oracle = Raise InsufficientVocabularyError.
Proof.
  intros g. split; [reflexivity|].
  pose proof (dashboard_memorable_outcome g (mkRng oracle 0)) as [Hok Herr].
  pose proof (dashboard_memorable_outcome
                (Dashboard.init_memorable 4 sep cap [] suf) (mkRng oracle 0))
    as [_ Herr4].
  unfold run. split.
  - destruct (Nat.le_gt_cases n 3) as [Hle|Hgt].
    + destruct (Hok Hle) as (ws & suffix & Hrun & _). rewrite Hrun.
      split; [done|by eexists].
    + rewrite (Herr Hgt). simpl. split; [by intros [? ?]|lia].
  - rewrite Herr4; [done|]. simpl. lia.
Qed.

(** X20: [generate()] of [password_generators.py] with a non-empty
    vocabulary never fails: it returns [no_of_words] words of the whole
    vocabulary, picked with replacement, capitalized or else left as
    they are, joined by the separator and followed by [suffix_length]
    decimal digits, after [no_of_words + suffix_length] draws.  With an
    empty vocabulary it raises [IndexError] as soon as a word is asked
    for. *)
Theorem library_memorable_contract
    (self : PasswordGenerators.MemorablePasswordGenerator) (oracle : nat -> nat) :
  (PasswordGenerators.mpg_vocabulary self ≠ [] ->
   ∃ ws suffix,
     run (PasswordGenerators.generate_memorable self) oracle
     = Ok (join (PasswordGenerators.mpg_separator self)
             (if PasswordGenerators.mpg_capitalization self
              then capitalize <$> ws else ws) ++ suffix)
     ∧ length ws = PasswordGenerators.mpg_no_of_words self
     ∧ Forall (fun w => w ∈ PasswordGenerators.mpg_vocabulary self) ws
     ∧ length suffix = PasswordGenerators.mpg_suffix_length self
     ∧ Forall (fun c => c ∈ digits) suffix
     ∧ consumed (PasswordGenerators.generate_memorable self) oracle
       = PasswordGenerators.mpg_no_of_words self
         + PasswordGenerators.mpg_suffix_length self)
  ∧ (PasswordGenerators.mpg_vocabulary self = [] ->
     0 < PasswordGenerators.mpg_no_of_words self ->
     run (PasswordGenerators.generate_memorable self) oracle = Raise IndexError).
Proof.
  split.
  - intros Hne. eexists _, _. split; [by apply library_memorable_eq|].
    split_and!; [apply length_picks|by apply picks_elem_of|apply length_picks
                |apply picks_elem_of, digits_nonempty|].
    unfold consumed, PasswordGenerators.generate_memorable.
    unfold bind at 1. rewrite (replicateM_choice_eq []) by done.
    destruct (Nat.ltb_spec 0 (PasswordGenerators.mpg_suffix_length self)).
    + unfold bind.
      rewrite (replicateM_choice_eq "0"%char) by apply digits_nonempty.
      simpl. lia.
    + simpl. lia.
  - intros Hnil Hn. unfold run, PasswordGenerators.generate_memorable.
    rewrite Hnil.
    destruct (PasswordGenerators.mpg_no_of_words self) as [|n]; [lia|].
    reflexivity.
Qed.

Lemma library_memorable_contract_witness :
  ([str_of "Sun"; str_of "elephants"] ≠ []
   ∧ ∃ ws suffix,
       run (PasswordGenerators.generate_memorable
              (PasswordGenerators.mkMemorable 2 (str_of "+") false 1
                 [str_of "Sun"; str_of "elephants"]))
           (fun i => i) = Ok (join (str_of "+") ws ++ suffix)
       ∧ length ws = 2
       ∧ Forall (fun w => w ∈ [str_of "Sun"; str_of "elephants"]) ws
       ∧ length suffix = 1
       ∧ Forall (fun c => c ∈ digits) suffix
       ∧ consumed (PasswordGenerators.generate_memorable
                     (PasswordGenerators.mkMemorable 2 (str_of "+") false 1
                        [str_of "Sun"; str_of "elephants"]))
                  (fun i => i) = 2 + 1)
  ∧ (0 < 1
     ∧ run (PasswordGenerators.generate_memorable
              (PasswordGenerators.mkMemorable 1 (str_of "+") false 1 []))
           (fun i => i) = Raise IndexError).
Proof.
  assert (Hne : [str_of "Sun"; str_of "elephants"] ≠ []) by discriminate.
  assert (Hpos : 0 < 1) by lia.
  split.
  - split; [exact Hne|].
    exact (proj1 (library_memorable_contract
                    (PasswordGenerators.mkMemorable 2 (str_of "+") false 1
                       [str_of "Sun"; str_of "elephants"]) (fun i => i)) Hne).
  - split; [exact Hpos|].
    exact (proj2 (library_memorable_contract
                    (PasswordGenerators.mkMemorable 1 (str_of "+") false 1 [])
                    (fun i => i)) eq_refl Hpos).
Defined.

(** ** The generators of [dasshboard.py] raise only [ValueError] *)

Lemma dashboard_generate_value_error
    (g : Dashboard.RandomPasswordGenerator) (r : Rng) :
  (∃ pw r', Dashboard.generate g r = (Ok pw, r'))
  ∨ (∃ m, Dashboard.generate g r = (Raise (ValueError m), r)).
Proof.
  unfold Dashboard.generate. cbv zeta.
  case_bool_decide as Hpool; [right; by eexists|].
  destruct (Dashboard.no_repeated g); simpl.
  - destruct (Nat.ltb_spec (length (Dashboard.chars g)) (Dashboard.length_ g))
      as [Hlt|Hle]; [right; by eexists|].
    destruct (sample_elem_of (Dashboard.chars g) _ r Hle) as (pw & -> & _).
    left. by eexists _, _.
  - rewrite (replicateM_choice_eq "0"%char) by done. left. by eexists _, _.
Qed.

Lemma dashboard_memorable_value_error
    (g : Dashboard.MemorablePasswordGenerator) (r : Rng) :
  (∃ pw r', Dashboard.generate_memorable g r = (Ok pw, r'))
  ∨ (∃ m, Dashboard.generate_memorable g r = (Raise (ValueError m), r)).
Proof.
  destruct (dashboard_memorable_outcome g r) as [Hok Herr].
  destruct (Nat.le_gt_cases (Dashboard.no_of_words g)
              (length (spec_filtered (Dashboard.vocabulary g)))) as [Hle|Hgt].
  - destruct (Hok Hle) as (ws & suffix & Hrun & _). left.
    destruct (Dashboard.generate_memorable g r) as [res r'].
    simpl in Hrun. subst res. by eexists _, _.
  - right. rewrite (Herr Hgt). by eexists.
Qed.

Lemma page_generate_value_error (g : Page.Generator) (r : Rng) :
  (∃ pw r', Page.generate g r = (Ok pw, r'))
  ∨ (∃ m r', Page.generate g r = (Raise (ValueError m), r')).
Proof.
  destruct g as [g|g|len]; simpl.
  - destruct (dashboard_generate_value_error g r) as [?|[m ?]];
      [by left|right; by eexists _, _].
  - destruct (dashboard_memorable_value_error g r) as [?|[m ?]];
      [by left|right; by eexists _, _].
  - left. unfold Dashboard.generate_pin, choices.
    rewrite (replicateM_choice_eq "0"%char) by apply digits_nonempty.
    by eexists _, _.
Qed.

(** X21: no generator of [dasshboard.py] ever raises anything but
    [ValueError], the only exception the page catches: [generate()]
    returns a string or raises [ValueError], for the random, the
    memorable and the PIN generator, whatever their settings. *)
Theorem dashboard_raises_only_value_error (g : Page.Generator)
    (oracle : nat -> nat) :
  match run (Page.generate g) oracle with
  | Ok _ => True
  | Raise (ValueError _) => True
  | Raise IndexError => False
  end.
Proof.
  unfold run.
  destruct (page_generate_value_error g (mkRng oracle 0))
    as [(pw & r' & ->)|(m & r' & ->)]; done.
Qed.

(** ** The page *)

Lemma try_generate_cases (g : Page.Generator) (st : Page.session) (r : Rng) :
  (∃ pw r', Page.generate g r = (Ok pw, r')
            ∧ Page.try_generate g st r = (Ok (Page.store pw st, true), r'))
  ∨ (∃ m r', Page.generate g r = (Raise (ValueError m), r')
             ∧ Page.try_generate g st r = (Ok (st, false), r')).
Proof.
  unfold Page.try_generate.
  destruct (page_generate_value_error g r) as [(pw & r' & Hrun)|(m & r' & Hrun)];
    rewrite Hrun; [left|right]; by eexists _, _.
Qed.

Lemma select_entered (w : Page.widgets) (st : Page.session) :
  Page.select w st = entered w st.
Proof.
  unfold Page.select, entered.
  destruct (decide _) as [Heq|Hne]; simpl; [by rewrite Heq|done].
Qed.

Lemma store_entered (w : Page.widgets) (st : Page.session) (pw : str) :
  Page.store pw (entered w st) = generated w st pw.
Proof. reflexivity. Qed.

Lemma on_button_cases (button : bool) (st : Page.session) (r : Rng) :
  (∃ r', Page.on_button button st r = (Ok (st, false), r'))
  ∨ (∃ pw g r', button = true ∧ Page.generator st = Some g
                ∧ Page.generate g r = (Ok pw, r')
                ∧ Page.on_button button st r = (Ok (Page.store pw st, true), r')).
Proof.
  unfold Page.on_button. destruct button; [|left; by eexists].
  destruct (Page.generator st) as [g|] eqn:Hg; [|left; by eexists].
  destruct (try_generate_cases g st r)
    as [(pw & r' & Hgen & ->)|(m & r' & Hgen & ->)].
  - right. by eexists pw, g, r'.
  - left. by eexists.
Qed.

Lemma first_run_cases (st : Page.session) (r : Rng) :
  (∃ r', Page.first_run st r = (Ok st, r')
         ∧ (Page.generator st = None ∨ Page.password st ≠ None
            ∨ ∃ g m, Page.generator st = Some g
                     ∧ Page.generate g r = (Raise (ValueError m), r')))
  ∨ (∃ pw g r', Page.password st = None ∧ Page.generator st = Some g
                ∧ Page.generate g r = (Ok pw, r')
                ∧ Page.first_run st r = (Ok (Page.store pw st), r')).
Proof.
  unfold Page.first_run.
  destruct (Page.password st) as [p|] eqn:Hp.
  { left. eexists. split; [reflexivity|]. right. by left. }
  destruct (Page.generator st) as [g|] eqn:Hg.
  2:{ left. eexists. split; [reflexivity|]. by left. }
  unfold bind.
  destruct (try_generate_cases g st r)
    as [(pw & r' & Hgen & ->)|(m & r' & Hgen & ->)].
  - right. by eexists pw, g, r'.
  - left. exists r'. split; [reflexivity|]. right. right. by eexists g, m.
Qed.

Lemma script_pass_cases (w : Page.widgets) (button : bool) (st : Page.session)
    (r : Rng) :
  (∃ r', Page.script_pass w button st r = (Ok (entered w st, false), r')
         ∧ (Page.selected_generator w = None
            ∨ Page.password (entered w st) ≠ None
            ∨ ∃ g r0 m r1, Page.selected_generator w = Some g
                           ∧ Page.generate g r0 = (Raise (ValueError m), r1)))
  ∨ (∃ pw rerun g r0 r1 r',
        Page.selected_generator w = Some g
        ∧ Page.generate g r0 = (Ok pw, r1)
        ∧ Page.script_pass w button st r = (Ok (generated w st pw, rerun), r')
        ∧ (rerun = true -> button = true)).
Proof.
  assert (Hpass : Page.script_pass w button st r
                  = match Page.on_button button (entered w st) r with
                    | (Ok (st1, true), r1) => (Ok (st1, true), r1)
                    | (Ok (st1, false), r1) =>
                        match Page.first_run st1 r1 with
                        | (Ok st2, r2) => (Ok (st2, false), r2)
                        | (Raise e, r2) => (Raise e, r2)
                        end
                    | (Raise e, r1) => (Raise e, r1)
                    end).
  { unfold Page.script_pass, bind, ret. rewrite select_entered.
    destruct (Page.on_button button (entered w st) r) as [[[st1 []]|e] r1]; done. }
  rewrite Hpass. clear Hpass.
  destruct (on_button_cases button (entered w st) r)
    as [(r1 & Hob)|(pw & g & r1 & Hb & Hg & Hgen & Hob)]; rewrite Hob.
  - destruct (first_run_cases (entered w st) r1)
      as [(r2 & Hfr & Hwhy)|(pw & g & r2 & Hp & Hg & Hgen & Hfr)]; rewrite Hfr.
    + left. exists r2. split; [reflexivity|].
      destruct Hwhy as [?|[?|(g & m & ? & ?)]]; [by left|right; by left|].
      right. right. by eexists g, r1, m, r2.
    + right. by exists pw, false, g, r1, r2, r2.
  - right. by exists pw, true, g, r, r1, r1.
Qed.

Lemma script_pass_again (w : Page.widgets) (st : Page.session) (pw : str)
    (r : Rng) :
  Page.script_pass w false (generated w st pw) r
  = (Ok (generated w st pw, false), r).
Proof.
  unfold Page.script_pass. rewrite select_entered.
  unfold entered, generated. simpl. by rewrite decide_True.
Qed.

Lemma script_run_cases (w : Page.widgets) (button : bool)
    (st : Page.session) (r : Rng) :
  ∃ st' r', Page.script_run w button st r = (Ok st', r')
            ∧ (st' = entered w st ∨ ∃ pw, st' = generated w st pw).
Proof.
  unfold Page.script_run. unfold bind at 1.
  destruct (script_pass_cases w button st r)
    as [(r1 & -> & _)|(pw & rerun & g & r0 & r1 & r2 & _ & _ & -> & _)].
  - exists (entered w st), r1. split; [done|by left].
  - exists (generated w st pw), r2. split; [|right; by exists pw].
    destruct rerun; [|done]. unfold bind. by rewrite script_pass_again.
Qed.

(** X22: a run of the page script never ends in an uncaught exception.
    It records the chosen option and the generator built from the
    widgets (none when, for a random password, no character class is
    ticked), and then either has generated nothing, the history being
    unchanged and the password shown being the old one, or none after a
    change of option; or has generated exactly one password with the
    selected generator, appended it to the history and made it the
    password shown.  After a run no password is shown only if there is
    no generator or a generation failed. *)
Theorem script_run_effect (w : Page.widgets) (button : bool)
    (st : Page.session) (r : Rng) :
  ∃ st' r',
    Page.script_run w button st r = (Ok st', r')
    ∧ Page.generator st' = Page.selected_generator w
    ∧ Page.last_option st' = Some (Page.chosen_option w)
    ∧ ((st' = entered w st
        ∧ (Page.password st' = None ->
           Page.selected_generator w = None
           ∨ ∃ g r0 m r1, Page.selected_generator w = Some g
                          ∧ Page.generate g r0 = (Raise (ValueError m), r1)))
       ∨ (∃ pw g r0 r1,
             Page.selected_generator w = Some g
             ∧ Page.generate g r0 = (Ok pw, r1)
             ∧ st' = generated w st pw
             ∧ Page.password st' = Some pw
             ∧ Page.password_history st' = Page.password_history st ++ [pw])).
Proof.
  unfold Page.script_run. unfold bind at 1.
  destruct (script_pass_cases w button st r)
    as [(r1 & -> & Hwhy)|(pw & rerun & g & r0 & r1 & r2 & Hg & Hgen & -> & _)].
  - exists (entered w st), r1. split_and!; try done. left. split; [done|].
    intros Hnone. destruct Hwhy as [?|[?|?]]; [by left|done|by right].
  - exists (generated w st pw), r2. split_and!; try done.
    + destruct rerun; [|done]. unfold bind. by rewrite script_pass_again.
    + right. by exists pw, g, r0, r1.
Qed.

(** X23: in every session that runs of the script lead to, the password
    shown, if any, is the last entry of the history. *)
Theorem reachable_shows_latest (st : Page.session) :
  Page.reachable st -> shows_latest st.
Proof.
  induction 1 as [|st w button r st' r' Hreach IH Hrun].
  - intros pw Hpw. discriminate Hpw.
  - destruct (script_run_cases w button st r) as (st2 & r2 & Hrun2 & Hcases).
    rewrite Hrun in Hrun2. injection Hrun2 as <- <-.
    destruct Hcases as [->|(pw & ->)]; intros p Hp.
    + unfold entered in *. simpl in *.
      destruct (decide _); [by apply IH|discriminate].
    + simpl in *. injection Hp as <-. apply last_snoc.
Qed.

(** A first run of the page with the PIN widgets at length 4, on the
    draws 3, 4, 5, 6: the PIN 3456 is generated, shown and recorded. *)
Lemma reachable_shows_latest_witness :
  Page.reachable
    (Page.mkSession (Some (Page.GPin 4)) (Some (str_of "3456"))
       [str_of "3456"] (Some Page.PinCode))
  ∧ shows_latest
      (Page.mkSession (Some (Page.GPin 4)) (Some (str_of "3456"))
         [str_of "3456"] (Some Page.PinCode)).
Proof.
  assert (Hreach : Page.reachable
            (Page.mkSession (Some (Page.GPin 4)) (Some (str_of "3456"))
               [str_of "3456"] (Some Page.PinCode))).
  { apply (Page.reachable_run Page.initial (Page.PinWidgets 4) false
             (mkRng (fun i => i + 3) 0) _ (mkRng (fun i => i + 3) 4)
             Page.reachable_initial).
    reflexivity. }
  split; [exact Hreach|].
  exact (reachable_shows_latest _ Hreach).
Defined.

(** ** Letter case of the passphrases of [dasshboard.py] *)

Lemma lower_char_not_upper (c : ascii) : is_ascii_upper (lower_char c) = false.
Proof. destruct c as [[] [] [] [] [] [] [] []]; reflexivity. Qed.

Lemma join_Forall (P : ascii -> Prop) (sep : str) (ws : list str) :
  Forall P sep -> Forall (Forall P) ws -> Forall P (join sep ws).
Proof.
  intros Hsep Hws. induction Hws as [|w ws Hw Hws IH]; [constructor|].
  destruct ws as [|w' ws]; [done|].
  change (join sep (w :: w' :: ws)) with (w ++ sep ++ join sep (w' :: ws)).
  rewrite !Forall_app. by split_and!.
Qed.

(** X24: with capitalization off and a separator without capital
    letters, a passphrase returned by [generate()] of [dasshboard.py]
    holds no capital letter A to Z, whatever the case of the vocabulary. *)
Theorem dashboard_lowercase_passphrase
    (self : Dashboard.MemorablePasswordGenerator) (oracle : nat -> nat)
    (pw : str) :
  Dashboard.capitalization self = false ->
  Forall (fun c => is_ascii_upper c = false) (Dashboard.separator self) ->
  run (Dashboard.generate_memorable self) oracle = Ok pw ->
  Forall (fun c => is_ascii_upper c = false) pw.
Proof.
  intros Hcap Hsep Hrun. unfold run in Hrun.
  destruct (dashboard_memorable_outcome self (mkRng oracle 0)) as [Hok Herr].
  destruct (Nat.le_gt_cases (Dashboard.no_of_words self)
              (length (spec_filtered (Dashboard.vocabulary self)))) as [Hle|Hgt].
  - destruct (Hok Hle) as (ws & suffix & Heq & _ & _ & _ & Hdig).
    rewrite Heq in Hrun. injection Hrun as <-. rewrite Hcap.
    apply Forall_app. split.
    + apply join_Forall; [done|]. apply Forall_fmap, Forall_true.
      intros w. unfold lower. apply Forall_fmap, Forall_true.
      intros c. apply lower_char_not_upper.
    + eapply Forall_impl; [exact Hdig|]. intros c Hc.
      by destruct (digit_classes c Hc) as [? _].
  - rewrite (Herr Hgt) in Hrun. discriminate Hrun.
Qed.

Lemma dashboard_lowercase_passphrase_witness :
  Dashboard.capitalization
    (Dashboard.init_memorable 2 (str_of "_") false
       [str_of "LAKE"; str_of "Stone"] 1) = false
  ∧ Forall (fun c => is_ascii_upper c = false) (str_of "_")
  ∧ run (Dashboard.generate_memorable
           (Dashboard.init_memorable 2 (str_of "_") false
              [str_of "LAKE"; str_of "Stone"] 1))
        (fun _ => 0) = Ok (str_of "lake_stone0")
  ∧ Forall (fun c => is_ascii_upper c = false) (str_of "lake_stone0").
Proof.
  assert (Hsep : Forall (fun c => is_ascii_upper c = false) (str_of "_"))
    by (by repeat constructor).
  assert (Hrun : run (Dashboard.generate_memorable
                        (Dashboard.init_memorable 2 (str_of "_") false
                           [str_of "LAKE"; str_of "Stone"] 1))
                     (fun _ => 0) = Ok (str_of "lake_stone0")) by reflexivity.
  split; [reflexivity|]. split; [exact Hsep|]. split; [exact Hrun|].
  exact (dashboard_lowercase_passphrase
           (Dashboard.init_memorable 2 (str_of "_") false
              [str_of "LAKE"; str_of "Stone"] 1)
           (fun _ => 0) (str_of "lake_stone0") eq_refl Hsep Hrun).
Defined.
